(* ===================================================================== *)
(* telegram-bot.py: the content-dispatch and augmentation pipeline        *)
(*                                                                        *)
(* A shallow embedding of class TelegramBot.  The handlers are programs   *)
(* of a state-and-exception monad over the bot's world (the four Mongo    *)
(* collections, the messages handed to the transport, the log).  The      *)
(* external collaborators that can fail -- file retrieval, the two        *)
(* generative models and the PDF reader -- are oracles of an environment  *)
(* record; each may return a value or raise.  Sending a reply, sending a  *)
(* chat action and writing to the store are effects on the world that     *)
(* always return.  `await` and `asyncio.to_thread` are sequenced in       *)
(* program order: one handler invocation is strictly sequential.          *)
(* ===================================================================== *)

From Stdlib Require Import ZArith NArith Ascii.
From Stdlib Require String.
From stdpp Require Import base gmap list strings.

Local Open Scope Z_scope.

(* --------------------------------------------------------------------- *)
(* Python strings                                                         *)
(* --------------------------------------------------------------------- *)

(** The built-in string operations the bot uses.  A character is a code
    point below 256. *)
Module Py.

(** [s[:n]] *)
Fixpoint slice_to (n : nat) (s : string) : string :=
  match n, s with
  | O, _ => EmptyString
  | S _, EmptyString => EmptyString
  | S n', String c s' => String c (slice_to n' s')
  end.

(** [s[n:]] *)
Fixpoint slice_from (n : nat) (s : string) : string :=
  match n, s with
  | O, _ => s
  | S _, EmptyString => EmptyString
  | S n', String _ s' => slice_from n' s'
  end.

(** [len(s)] *)
Definition len (s : string) : nat := String.length s.

(** The lower-case form of one character: A-Z and the upper-case
    Latin-1 letters (all of 0xC0-0xDE but the sign 0xD7) move up by 32. *)
Definition lower_char (c : ascii) : ascii :=
  let n := N_of_ascii c in
  if ((65 <=? n) && (n <=? 90))%N
     || ((192 <=? n) && (n <=? 222) && negb (n =? 215))%N
  then ascii_of_N (n + 32)
  else c.

(** [s.lower()] *)
Fixpoint lower (s : string) : string :=
  match s with
  | EmptyString => EmptyString
  | String c s' => String (lower_char c) (lower s')
  end.

(** [s.endswith(suffix)] *)
Definition endswith (s suffix : string) : bool :=
  if (len suffix <=? len s)%nat
  then bool_decide (slice_from (len s - len suffix) s = suffix)
  else false.

(** [sep.join(ls)] *)
Fixpoint join (sep : string) (ls : list string) : string :=
  match ls with
  | [] => EmptyString
  | [x] => x
  | x :: xs => x +:+ sep +:+ join sep xs
  end.

(** Truth value of a string: the empty string is falsy. *)
Definition truthy (s : string) : bool :=
  match s with
  | EmptyString => false
  | String _ _ => true
  end.

(** [o or ""] for [o] a string or [None]. *)
Definition or_empty (o : option string) : string :=
  match o with
  | Some s => if truthy s then s else EmptyString
  | None => EmptyString
  end.

End Py.

(* --------------------------------------------------------------------- *)
(* Exceptions and the handler monad                                       *)
(* --------------------------------------------------------------------- *)

(** An exception, by its message. *)
Definition exn := string.

Inductive Result (A : Type) : Type :=
| Ok (a : A)
| Raise (e : exn).
Arguments Ok {A} a.
Arguments Raise {A} e.

(** A program over a state [S]: it returns or raises, and the state it
    leaves is kept either way (nothing is rolled back by an exception). *)
Definition M (S A : Type) : Type := S -> Result A * S.

Definition ret {S A} (a : A) : M S A := fun s => (Ok a, s).

Definition bind {S A B} (m : M S A) (k : A -> M S B) : M S B :=
  fun s =>
    match m s with
    | (Ok a, s') => k a s'
    | (Raise e, s') => (Raise e, s')
    end.

Definition raise {S A} (e : exn) : M S A := fun s => (Raise e, s).

(** [try: body except Exception as e: handler(e)] *)
Definition try_except {S A} (body : M S A) (handler : exn -> M S A) : M S A :=
  fun s =>
    match body s with
    | (Ok a, s') => (Ok a, s')
    | (Raise e, s') => handler e s'
    end.

(** An external call whose outcome is already decided. *)
Definition call {S A} (r : Result A) : M S A := fun s => (r, s).

Definition modify {S} (f : S -> S) : M S unit := fun s => (Ok tt, f s).

(** [for x in xs: body(x)] *)
Fixpoint for_each {S A} (xs : list A) (body : A -> M S unit) : M S unit :=
  match xs with
  | [] => ret tt
  | x :: rest => bind (body x) (fun _ => for_each rest body)
  end.

(** A block with one local variable: the body runs over the state paired
    with the variable, and the variable is dropped when the block ends. *)
Definition with_local {S L A} (init : L) (body : M (S * L) A) : M S A :=
  fun s =>
    match body (s, init) with
    | (r, (s', _)) => (r, s')
    end.

Definition lift {S L A} (m : M S A) : M (S * L) A :=
  fun sl =>
    match m (fst sl) with
    | (r, s') => (r, (s', snd sl))
    end.

Definition get_local {S L} : M (S * L) L := fun sl => (Ok (snd sl), sl).

Definition set_local {S L} (v : L) : M (S * L) unit :=
  fun sl => (Ok tt, (fst sl, v)).

Declare Scope monad_scope.
Delimit Scope monad_scope with monad.
Notation "x <- m ;; k" := (bind m (fun x => k))
  (at level 100, m at next level, right associativity) : monad_scope.
Notation "m ;;; k" := (bind m (fun _ => k))
  (at level 100, right associativity) : monad_scope.
Local Open Scope monad_scope.

(* --------------------------------------------------------------------- *)
(* Data model                                                             *)
(* --------------------------------------------------------------------- *)

Definition bytes := list Byte.byte.

(** A value stored in a Mongo document. *)
Inductive value : Type :=
| VNull
| VInt (z : Z)
| VStr (s : string)
| VTime (t : Z).

#[global] Instance value_eq_dec : EqDecision value.
Proof. solve_decision. Defined.

(** A Python dict with string keys, and so a Mongo document.  The [_id]
    the store adds to an inserted document is left out. *)
Abbreviation dict := (gmap string value).

(** [{k1: v1, ..., kn: vn}] *)
Definition mk_dict (items : list (string * value)) : dict :=
  foldl (fun d kv => <[fst kv := snd kv]> d) ∅ items.

Definition opt_str (o : option string) : value :=
  match o with
  | Some s => VStr s
  | None => VNull
  end.

(** [update.effective_user] *)
Record User := { first_name : string; username : option string }.

(** [update.message.contact] *)
Record Contact := { phone_number : string }.

Module PhotoSize.
Record t := { file_id : string }.
End PhotoSize.

Module Document.
Record t := { file_id : string; file_name : string }.
End Document.

(** The file object [context.bot.get_file] returns, with what downloading
    it will give. *)
Record File := { file_path : string; download_as_bytearray : Result bytes }.

(** A page of a parsed PDF, with what [page.extract_text()] will give. *)
Record Page := { extract_text : Result (option string) }.

(** What [generate_content] returns when it returns an object. *)
Record Response := { text : string }.

Record KeyboardButton := { label : string; request_contact : bool }.

Record ReplyKeyboardMarkup :=
  { keyboard : list (list KeyboardButton); one_time_keyboard : bool }.

(** A message handed to the transport by [update.message.reply_text]. *)
Record Reply :=
  { to_chat : Z; body : string; reply_markup : option ReplyKeyboardMarkup }.

Inductive Level := INFO | ERROR.

#[global] Instance Level_eq_dec : EqDecision Level.
Proof. solve_decision. Defined.

(** A log line: the f-string and the values of its fields. *)
Record LogEntry := { level : Level; template : string; fields : list value }.

Inductive InferenceCall :=
| TextCall (prompt : string)       (* self.model.generate_content *)
| VisionCall (image : bytes).      (* self.vision_model.generate_content *)

(** [self.db] *)
Record Db := {
  users : list dict;
  chat_history : list dict;
  image_analysis : list dict;
  document_analysis : list dict
}.

(** The bot's world.  [inference_log] and [extraction_log] are
    instrumentation: every call of a model with its outcome, and every
    call of [extract_text_from_pdf] with its argument. *)
Record World := {
  db : Db;
  outbox : list Reply;
  chat_actions : list (Z * string);
  log : list LogEntry;
  inference_log : list (InferenceCall * Result (option Response));
  extraction_log : list bytes
}.

(** The collaborators that can fail, and the clock. *)
Record Env := {
  get_file : string -> Result File;
  model_generate_content : string -> Result (option Response);
  vision_model_generate_content : bytes -> Result (option Response);
  PdfReader : bytes -> Result (list Page);
  utcnow : Z
}.

Definition empty_db : Db :=
  {| users := []; chat_history := []; image_analysis := [];
     document_analysis := [] |}.

Definition empty_world : World :=
  {| db := empty_db; outbox := []; chat_actions := []; log := [];
     inference_log := []; extraction_log := [] |}.

(* --------------------------------------------------------------------- *)
(* Effects on the world                                                   *)
(* --------------------------------------------------------------------- *)

Definition set_db (f : Db -> Db) (w : World) : World :=
  {| db := f (db w); outbox := outbox w; chat_actions := chat_actions w;
     log := log w; inference_log := inference_log w;
     extraction_log := extraction_log w |}.

Definition set_users (f : list dict -> list dict) (d : Db) : Db :=
  {| users := f (users d); chat_history := chat_history d;
     image_analysis := image_analysis d;
     document_analysis := document_analysis d |}.

Definition set_chat_history (f : list dict -> list dict) (d : Db) : Db :=
  {| users := users d; chat_history := f (chat_history d);
     image_analysis := image_analysis d;
     document_analysis := document_analysis d |}.

Definition set_image_analysis (f : list dict -> list dict) (d : Db) : Db :=
  {| users := users d; chat_history := chat_history d;
     image_analysis := f (image_analysis d);
     document_analysis := document_analysis d |}.

Definition set_document_analysis (f : list dict -> list dict) (d : Db) : Db :=
  {| users := users d; chat_history := chat_history d;
     image_analysis := image_analysis d;
     document_analysis := f (document_analysis d) |}.

(** [collection.insert_one(doc)] *)
Definition insert_one (d : dict) (coll : list dict) : list dict := coll ++ [d].

(** [collection.update_one({key: v}, {"$set": fields}, upsert=True)]: the
    first document whose [key] is [v] gets [fields] written over it, its
    other fields kept; when there is none, a document made of the filter
    and [fields] is inserted. *)
Fixpoint update_one_set_upsert (key : string) (v : value) (fields : dict)
    (coll : list dict) : list dict :=
  match coll with
  | [] => [fields ∪ {[ key := v ]}]
  | d :: rest =>
      if bool_decide (d !! key = Some v)
      then (fields ∪ d) :: rest
      else d :: update_one_set_upsert key v fields rest
  end.

(** [update.message.reply_text(text, reply_markup=markup)]: the message is
    handed to the transport.  What the transport does with it, a failure
    to send included, is not modelled: the outbox holds what the handler
    asked to send. *)
Definition reply_text (chat_id : Z) (s : string)
    (markup : option ReplyKeyboardMarkup) : M World unit :=
  modify (fun w =>
    {| db := db w;
       outbox := outbox w ++ [{| to_chat := chat_id; body := s;
                                 reply_markup := markup |}];
       chat_actions := chat_actions w; log := log w;
       inference_log := inference_log w;
       extraction_log := extraction_log w |}).

(** [update.message.chat.send_action(action)], handed to the transport in
    the same way. *)
Definition send_action (chat_id : Z) (action : string) : M World unit :=
  modify (fun w =>
    {| db := db w; outbox := outbox w;
       chat_actions := chat_actions w ++ [(chat_id, action)];
       log := log w; inference_log := inference_log w;
       extraction_log := extraction_log w |}).

Definition logger (l : Level) (tpl : string) (args : list value)
  : M World unit :=
  modify (fun w =>
    {| db := db w; outbox := outbox w; chat_actions := chat_actions w;
       log := log w ++ [{| level := l; template := tpl; fields := args |}];
       inference_log := inference_log w;
       extraction_log := extraction_log w |}).

Definition record_inference (c : InferenceCall)
    (r : Result (option Response)) (w : World) : World :=
  {| db := db w; outbox := outbox w; chat_actions := chat_actions w;
     log := log w; inference_log := inference_log w ++ [(c, r)];
     extraction_log := extraction_log w |}.

Definition record_extraction (b : bytes) (w : World) : World :=
  {| db := db w; outbox := outbox w; chat_actions := chat_actions w;
     log := log w; inference_log := inference_log w;
     extraction_log := extraction_log w ++ [b] |}.

(* --------------------------------------------------------------------- *)
(* class TelegramBot                                                      *)
(* --------------------------------------------------------------------- *)

(** The 4096 of the slices [text[:4096]]. *)
Definition max_reply_length : nat := 4096.

Section TelegramBot.

Variable env : Env.

(** [asyncio.to_thread(self.model.generate_content, prompt)] *)
Definition generate_content (prompt : string) : M World (option Response) :=
  fun w =>
    let r := model_generate_content env prompt in
    (r, record_inference (TextCall prompt) r w).

(** [asyncio.to_thread(self.vision_model.generate_content, image_bytes)] *)
Definition vision_generate_content (image_bytes : bytes)
  : M World (option Response) :=
  fun w =>
    let r := vision_model_generate_content env image_bytes in
    (r, record_inference (VisionCall image_bytes) r w).

(** [response.text if response else fallback]: an object is truthy, and
    [None] is not. *)
Definition text_or (response : option Response) (fallback : string) : string :=
  match response with
  | Some r => text r
  | None => fallback
  end.

Definition save_user (user_data : dict) : M World unit :=
  match user_data !! "chat_id" with
  | Some c =>
      modify (set_db (set_users (update_one_set_upsert "chat_id" c user_data)))
  | None => raise "KeyError: 'chat_id'"
  end.

Definition save_chat_history (chat_data : dict) : M World unit :=
  modify (set_db (set_chat_history
    (insert_one (<["timestamp" := VTime (utcnow env)]> chat_data)))).

Definition start (chat_id : Z) (user : User) : M World unit :=
  logger INFO "/start by {chat_id}" [VInt chat_id] ;;;
  save_user (mk_dict [("chat_id", VInt chat_id);
                      ("first_name", VStr (first_name user));
                      ("username", opt_str (username user))]) ;;;
  let button := {| label := "Share Contact"; request_contact := true |} in
  let reply_markup :=
    {| keyboard := [[button]]; one_time_keyboard := true |} in
  reply_text chat_id
    "Hello! Please share your contact to complete registration."
    (Some reply_markup).

Definition handle_contact (chat_id : Z) (contact : Contact) : M World unit :=
  save_user (mk_dict [("chat_id", VInt chat_id);
                      ("phone_number", VStr (phone_number contact))]) ;;;
  reply_text chat_id "Thanks for sharing your contact!" None.

Definition handle_message (chat_id : Z) (message : string) : M World unit :=
  logger INFO "Message from {chat_id}: {message}"
    [VInt chat_id; VStr message] ;;;
  send_action chat_id "typing" ;;;
  response <- generate_content message ;;
  let response_text := text_or response "I couldn't process that." in
  save_chat_history (mk_dict [("chat_id", VInt chat_id);
                              ("user_message", VStr message);
                              ("bot_response", VStr response_text)]) ;;;
  reply_text chat_id (Py.slice_to max_reply_length response_text) None.

(** [photo[-1]]: the last item, [IndexError] on the empty list. *)
Definition last_item {S A} (l : list A) : M S A :=
  match last l with
  | Some x => ret x
  | None => raise "IndexError: list index out of range"
  end.

Definition handle_photo (chat_id : Z) (photos : list PhotoSize.t)
  : M World unit :=
  photo <- last_item photos ;;
  file <- call (get_file env (PhotoSize.file_id photo)) ;;
  let file_path := file_path file in
  logger INFO "Image received from {chat_id}, file path: {file_path}"
    [VInt chat_id; VStr file_path] ;;;
  send_action chat_id "typing" ;;;
  try_except
    (image_bytes <- call (download_as_bytearray file) ;;
     response <- vision_generate_content image_bytes ;;
     let analysis := text_or response "Could not analyze the image." in
     modify (set_db (set_image_analysis (insert_one
       (mk_dict [("chat_id", VInt chat_id);
                 ("image_url", VStr file_path);
                 ("description", VStr analysis);
                 ("timestamp", VTime (utcnow env))])))) ;;;
     reply_text chat_id (Py.slice_to max_reply_length analysis) None)
    (fun e =>
       logger ERROR "Error analyzing image: {e}" [VStr e] ;;;
       reply_text chat_id
         "There was an error analyzing the image. Please try again later."
         None).

(** The body of the [try] of [extract_text_from_pdf]; the local variable
    is [text]. *)
Definition read_pages (pdf_bytes : bytes) : M (World * string) unit :=
  pdf_reader_pages <- call (PdfReader env pdf_bytes) ;;
  for_each pdf_reader_pages (fun page =>
    extracted <- call (extract_text page) ;;
    text <- get_local ;;
    set_local (text +:+ Py.or_empty extracted)).

Definition extract_text_from_pdf (pdf_bytes : bytes) : M World string :=
  modify (record_extraction pdf_bytes) ;;;
  with_local ""
    (try_except
       (read_pages pdf_bytes)
       (fun e => lift (logger ERROR "Error extracting text from PDF: {e}"
                         [VStr e])) ;;;
     get_local).

Definition handle_document (chat_id : Z) (document : Document.t)
  : M World unit :=
  file <- call (get_file env (Document.file_id document)) ;;
  let file_path := file_path file in
  let file_name := Document.file_name document in
  logger INFO "Document received from {chat_id}: {file_name}"
    [VInt chat_id; VStr file_name] ;;;
  send_action chat_id "typing" ;;;
  analysis <-
    (if Py.endswith (Py.lower file_name) ".pdf" then
       file_bytes <- call (download_as_bytearray file) ;;
       text <- extract_text_from_pdf file_bytes ;;
       if Py.truthy text then
         response <- generate_content text ;;
         ret (text_or response "Could not summarize the document.")
       else
         ret "No readable text found in the PDF."
     else
       ret "Unsupported document type.") ;;
  modify (set_db (set_document_analysis (insert_one
    (mk_dict [("chat_id", VInt chat_id);
              ("document_url", VStr file_path);
              ("description", VStr analysis);
              ("timestamp", VTime (utcnow env))])))) ;;;
  reply_text chat_id (Py.slice_to max_reply_length analysis) None.

Definition web_search (chat_id : Z) (args : list string) : M World unit :=
  match args with
  | [] =>
      reply_text chat_id "Please provide a search query after /websearch" None
  | _ :: _ =>
      let query := Py.join " " args in
      logger INFO "Web search requested: {query}" [VStr query] ;;;
      send_action chat_id "typing" ;;;
      let prompt :=
        "Search the web for: " +:+ query
          +:+ " and summarize the top results." in
      response <- generate_content prompt ;;
      let response_text := text_or response "No search results found." in
      reply_text chat_id (Py.slice_to max_reply_length response_text) None
  end.

End TelegramBot.

(* --------------------------------------------------------------------- *)
(* main(): the handlers registered with the application                   *)
(* --------------------------------------------------------------------- *)

(** An update as the filters of [main] classify it. *)
Inductive Event :=
| Command (name : string) (args : list string) (user : User)
| ContactShare (contact : Contact)
| TextMessage (message : string)
| PhotoMessage (photos : list PhotoSize.t)
| DocumentMessage (document : Document.t).

Definition dispatch (env : Env) (chat_id : Z) (ev : Event) : M World unit :=
  match ev with
  | Command name args user =>
      if bool_decide (name = "start") then start chat_id user
      else if bool_decide (name = "websearch") then web_search env chat_id args
      else ret tt
  | ContactShare contact => handle_contact chat_id contact
  | TextMessage message => handle_message env chat_id message
  | PhotoMessage photos => handle_photo env chat_id photos
  | DocumentMessage document => handle_document env chat_id document
  end.

(* --------------------------------------------------------------------- *)
(* Start-up: the module level and __init__                                *)
(* --------------------------------------------------------------------- *)

(** [os.environ], and [os.getenv]: [None] for a variable that is not set. *)
Definition getenv (environ : gmap string string) (name : string)
  : option string :=
  environ !! name.

(** [not v] for [v] a string or [None]. *)
Definition not_set (v : option string) : bool :=
  match v with
  | Some s => negb (Py.truthy s)
  | None => true
  end.

(** The check of the three variables at import; [exit(1)] raises
    [SystemExit]. *)
Definition validate_environment (environ : gmap string string)
  : M World unit :=
  let TELEGRAM_TOKEN := getenv environ "TELEGRAM_TOKEN" in
  let MONGODB_URI := getenv environ "MONGODB_URI" in
  let GEMINI_API_KEY := getenv environ "GEMINI_API_KEY" in
  if not_set TELEGRAM_TOKEN || not_set MONGODB_URI || not_set GEMINI_API_KEY
  then
    logger ERROR "Missing required environment variables." [] ;;;
    raise "SystemExit: 1"
  else ret tt.

(** The constructors [__init__] calls; each returns or raises. *)
Record Services := {
  MongoClient : string -> Result unit;
  GenerativeModel : string -> Result unit
}.

(** [TelegramBot.__init__] *)
Definition init (services : Services) (MONGODB_URI : string) : M World unit :=
  try_except
    (call (MongoClient services MONGODB_URI) ;;;
     logger INFO "Connected to MongoDB" [] ;;;
     call (GenerativeModel services "gemini-pro") ;;;
     call (GenerativeModel services "gemini-pro-vision"))
    (fun e =>
       logger ERROR "Initialization error: {e}" [VStr e] ;;;
       raise e).

(* --------------------------------------------------------------------- *)
(* Observations used by the statements                                    *)
(* --------------------------------------------------------------------- *)

(** [p] is a prefix of [s]. *)
Definition is_prefix (p s : string) : Prop := exists rest, s = p +:+ rest.

(** What one run of a handler added to the outbox and to the logs. *)
Definition new_replies (w w' : World) : list Reply :=
  drop (length (outbox w)) (outbox w').

Definition new_inferences (w w' : World)
  : list (InferenceCall * Result (option Response)) :=
  drop (length (inference_log w)) (inference_log w').

Definition new_extractions (w w' : World) : list bytes :=
  drop (length (extraction_log w)) (extraction_log w').

Definition logged_errors (w : World) : list LogEntry :=
  filter (fun e => level e = ERROR) (log w).

(** The text a page contributes: what [extract_text() or ""] gives when
    the call returns. *)
Definition page_text (p : Page) : string :=
  match extract_text p with
  | Ok o => Py.or_empty o
  | Raise _ => ""
  end.

(** The texts of the pages, joined in page order. *)
Definition concat_texts (pages : list Page) : string :=
  foldr (fun p acc => page_text p +:+ acc) "" pages.

(** The three ways a page can behave. *)
Definition page_raises (p : Page) : Prop :=
  exists e, extract_text p = Raise e.

Definition page_no_text (p : Page) : Prop :=
  exists o, extract_text p = Ok o /\ Py.or_empty o = "".

Definition page_has_text (p : Page) : Prop :=
  exists t, extract_text p = Ok (Some t) /\ t <> "".

Definition page_fails (p : Page) : Prop := page_raises p \/ page_no_text p.

(** Page [k] is the one page of [pages] that fails, in the sense [fails];
    every other page has text. *)
Definition only_page_failing (fails : Page -> Prop) (pages : list Page)
    (k : nat) : Prop :=
  (exists p, pages !! k = Some p /\ fails p) /\
  (forall j p, j <> k -> pages !! j = Some p -> page_has_text p).

(** A single failing page is skipped: the extracted text is that of the
    other pages, in order, and it is empty only when there is no other
    page.  The notion of failure is a parameter. *)
Definition skips_failing_page (fails : Page -> Prop) : Prop :=
  forall (env : Env) (pdf_bytes : bytes) (w : World) (pages : list Page)
         (k : nat),
    PdfReader env pdf_bytes = Ok pages ->
    only_page_failing fails pages k ->
    fst (extract_text_from_pdf env pdf_bytes w)
      = Ok (concat_texts (delete k pages)) /\
    (1 < length pages ->
     fst (extract_text_from_pdf env pdf_bytes w) <> Ok "")%nat.

(** The loop of [read_pages] as a function of the pages and of the text
    so far: how it ends, and the text it leaves. *)
Fixpoint scan_pages (pages : list Page) (acc : string) : Result unit * string :=
  match pages with
  | [] => (Ok tt, acc)
  | p :: rest =>
      match extract_text p with
      | Ok o => scan_pages rest (acc +:+ Py.or_empty o)
      | Raise e => (Raise e, acc)
      end
  end.

(** The text [extract_text_from_pdf] returns, read off the reader's
    oracle. *)
Definition extracted_text (env : Env) (pdf_bytes : bytes) : string :=
  match PdfReader env pdf_bytes with
  | Ok pages => snd (scan_pages pages "")
  | Raise _ => ""
  end.

Definition page_returns (p : Page) : Prop := exists o, extract_text p = Ok o.

(** A plain text reply to a chat. *)
Definition text_reply (chat_id : Z) (s : string) : Reply :=
  {| to_chat := chat_id; body := s; reply_markup := None |}.

(** Everything one run of the program [m] from the world [w] shows: how it
    ends, the store it leaves, and what it added to the outbox, to the
    error log, and to the logs of inference and extraction calls. *)
Definition runs_to {A} (m : M World A) (w : World) (r : Result A) (d : Db)
    (replies : list Reply) (errors : list LogEntry)
    (inferences : list (InferenceCall * Result (option Response)))
    (extractions : list bytes) : Prop :=
  exists w',
    m w = (r, w') /\
    db w' = d /\
    outbox w' = outbox w ++ replies /\
    logged_errors w' = logged_errors w ++ errors /\
    inference_log w' = inference_log w ++ inferences /\
    extraction_log w' = extraction_log w ++ extractions.

(** The documents the handlers insert. *)
Definition chat_record (env : Env) (chat_id : Z) (message response_text : string)
  : dict :=
  <["timestamp" := VTime (utcnow env)]>
    (mk_dict [("chat_id", VInt chat_id);
              ("user_message", VStr message);
              ("bot_response", VStr response_text)]).

Definition image_record (env : Env) (chat_id : Z) (file_path analysis : string)
  : dict :=
  mk_dict [("chat_id", VInt chat_id);
           ("image_url", VStr file_path);
           ("description", VStr analysis);
           ("timestamp", VTime (utcnow env))].

Definition document_record (env : Env) (chat_id : Z)
    (file_path analysis : string) : dict :=
  mk_dict [("chat_id", VInt chat_id);
           ("document_url", VStr file_path);
           ("description", VStr analysis);
           ("timestamp", VTime (utcnow env))].

Definition image_error_entry (e : exn) : LogEntry :=
  {| level := ERROR; template := "Error analyzing image: {e}";
     fields := [VStr e] |}.

Definition extraction_error_entry (e : exn) : LogEntry :=
  {| level := ERROR; template := "Error extracting text from PDF: {e}";
     fields := [VStr e] |}.

(** The events answered through a model and recorded. *)
Definition content_event (ev : Event) : Prop :=
  match ev with
  | TextMessage _ | PhotoMessage _ | DocumentMessage _ => True
  | Command _ _ _ | ContactShare _ => False
  end.

(** The field of its record that holds the text sent back. *)
Definition text_field (ev : Event) : string :=
  match ev with
  | TextMessage _ => "bot_response"
  | _ => "description"
  end.

(** The string each handler puts in place of an absent response. *)
Definition inference_fallback (ev : Event) : string :=
  match ev with
  | TextMessage _ => "I couldn't process that."
  | PhotoMessage _ => "Could not analyze the image."
  | DocumentMessage _ => "Could not summarize the document."
  | Command _ _ _ => "No search results found."
  | ContactShare _ => ""
  end.

(** The store [d'] is the store [d] with the one record [rec] appended to
    the collection of the event's kind, and nothing else changed. *)
Definition appends_record (ev : Event) (d d' : Db) (rec : dict) : Prop :=
  users d' = users d /\
  match ev with
  | TextMessage _ =>
      chat_history d' = chat_history d ++ [rec] /\
      image_analysis d' = image_analysis d /\
      document_analysis d' = document_analysis d
  | PhotoMessage _ =>
      chat_history d' = chat_history d /\
      image_analysis d' = image_analysis d ++ [rec] /\
      document_analysis d' = document_analysis d
  | DocumentMessage _ =>
      chat_history d' = chat_history d /\
      image_analysis d' = image_analysis d /\
      document_analysis d' = document_analysis d ++ [rec]
  | Command _ _ _ | ContactShare _ => False
  end.


(** [sub] occurs in [s]. *)
Definition contains (s sub : string) : Prop :=
  exists pre post, s = pre +:+ sub +:+ post.

(** The arguments of a command written one after the other with a single
    space between two neighbours, built from left to right; stated apart
    from [Py.join]. *)
Definition space_joined (args : list string) : string :=
  match args with
  | [] => ""
  | first :: others => foldl (fun acc a => acc +:+ " " +:+ a) first others
  end.

(** The dicts [start] and [handle_contact] pass to [save_user]. *)
Definition registration_data (chat_id : Z) (user : User) : dict :=
  mk_dict [("chat_id", VInt chat_id);
           ("first_name", VStr (first_name user));
           ("username", opt_str (username user))].

Definition contact_data (chat_id : Z) (contact : Contact) : dict :=
  mk_dict [("chat_id", VInt chat_id);
           ("phone_number", VStr (phone_number contact))].

(** The profiles stored for a chat. *)
Definition profiles_of (chat_id : Z) (w : World) : list dict :=
  filter (fun d : dict => d !! "chat_id" = Some (VInt chat_id)) (users (db w)).

(** The worlds the bot reaches from an empty store, one event after the
    other, whatever the collaborators do. *)
Inductive reachable : World -> Prop :=
| reachable_empty : reachable empty_world
| reachable_step (env : Env) (chat_id : Z) (ev : Event) (w : World) :
    reachable w -> reachable (snd (dispatch env chat_id ev w)).

(** A document whose name does not end in [.pdf], whatever the case. *)
Definition unsupported (document : Document.t) : Prop :=
  Py.endswith (Py.lower (Document.file_name document)) ".pdf" = false.

(** What the handler does with an unsupported document: one record and one
    reply, both with the fixed text, and no call of a model or of the
    extractor. *)
Definition unsupported_document_outcome (env : Env) (chat_id : Z)
    (document : Document.t) (w : World) : Prop :=
  let ev := DocumentMessage document in
  let w' := snd (dispatch env chat_id ev w) in
  (exists rec,
      appends_record ev (db w) (db w') rec /\
      rec !! "description" = Some (VStr "Unsupported document type.")) /\
  new_replies w w' = [text_reply chat_id "Unsupported document type."] /\
  new_inferences w w' = [] /\
  new_extractions w w' = [].

(** The environment [env] with both models answering [answer]. *)
Definition with_answer (env : Env) (answer : option Response) : Env :=
  {| get_file := get_file env;
     model_generate_content := fun _ => Ok answer;
     vision_model_generate_content := fun _ => Ok answer;
     PdfReader := PdfReader env;
     utcnow := utcnow env |}.

(** An absent response and a response with the empty text leave the same
    store and the same replies. *)
Definition absent_and_empty_agree : Prop :=
  forall (env : Env) (chat_id : Z) (ev : Event) (w : World),
    content_event ev ->
    let w1 := snd (dispatch (with_answer env None) chat_id ev w) in
    let w2 :=
      snd (dispatch (with_answer env (Some {| text := "" |})) chat_id ev w) in
    db w1 = db w2 /\ outbox w1 = outbox w2.

(** The error [extract_text_from_pdf] logs, if any: that of the reader,
    or of the first page that raises. *)
Definition extraction_errors (env : Env) (pdf_bytes : bytes) : list LogEntry :=
  match PdfReader env pdf_bytes with
  | Ok pages =>
      match fst (scan_pages pages "") with
      | Ok _ => []
      | Raise e => [extraction_error_entry e]
      end
  | Raise e => [extraction_error_entry e]
  end.

(** The reader opens the file and every page gives its text. *)
Definition reads_cleanly (env : Env) (pdf_bytes : bytes) : Prop :=
  exists pages,
    PdfReader env pdf_bytes = Ok pages /\ Forall page_returns pages.

(** The records of the three logs, counted. *)
Definition record_count (d : Db) : nat :=
  (length (chat_history d) + length (image_analysis d)
   + length (document_analysis d))%nat.

(** The reply of the except branch of [handle_photo]. *)
Definition photo_apology (chat_id : Z) : Reply :=
  text_reply chat_id
    "There was an error analyzing the image. Please try again later.".

(** The info lines of the log. *)
Definition logged_infos (w : World) : list LogEntry :=
  filter (fun e => level e = INFO) (log w).

(** The three variables are set, each to a string that is not empty. *)
Definition configured (environ : gmap string string) : Prop :=
  forall name,
    name ∈ ["TELEGRAM_TOKEN"; "MONGODB_URI"; "GEMINI_API_KEY"] ->
    exists s, getenv environ name = Some s /\ s <> "".

Definition missing_variables_entry : LogEntry :=
  {| level := ERROR; template := "Missing required environment variables.";
     fields := [] |}.

Definition init_error_entry (e : exn) : LogEntry :=
  {| level := ERROR; template := "Initialization error: {e}";
     fields := [VStr e] |}.

(** The reply of [start]: the prompt, with a one-time keyboard of one
    button that asks for the contact. *)
Definition contact_request (chat_id : Z) : Reply :=
  {| to_chat := chat_id;
     body := "Hello! Please share your contact to complete registration.";
     reply_markup :=
       Some {| keyboard :=
                 [[{| label := "Share Contact"; request_contact := true |}]];
               one_time_keyboard := true |} |}.

(* --------------------------------------------------------------------- *)
(* Sample inputs                                                          *)
(* --------------------------------------------------------------------- *)

Definition sample_file : File :=
  {| file_path := "documents/file_7.pdf"; download_as_bytearray := Ok [] |}.

(** A PDF of three pages whose second page cannot be extracted. *)
Definition three_pages : list Page :=
  [ {| extract_text := Ok (Some "ab") |};
    {| extract_text := Raise "cannot decode page" |};
    {| extract_text := Ok (Some "cd") |} ].

(** A PDF of three pages whose second page has no text layer. *)
Definition blank_middle_pages : list Page :=
  [ {| extract_text := Ok (Some "ab") |};
    {| extract_text := Ok None |};
    {| extract_text := Ok (Some "cd") |} ].

(** An environment in which every collaborator returns: the models answer
    [answer], the reader gives [pages]. *)
Definition sample_env (answer : option Response) (pages : list Page) : Env :=
  {| get_file := fun _ => Ok sample_file;
     model_generate_content := fun _ => Ok answer;
     vision_model_generate_content := fun _ => Ok answer;
     PdfReader := fun _ => Ok pages;
     utcnow := 1700000000 |}.

(** An environment whose models are out of service. *)
Definition model_down_env : Env :=
  {| get_file := fun _ => Ok sample_file;
     model_generate_content := fun _ => Raise "ServiceUnavailable";
     vision_model_generate_content := fun _ => Raise "ServiceUnavailable";
     PdfReader := fun _ => Ok blank_middle_pages;
     utcnow := 1700000000 |}.

(** An environment in which the transport cannot resolve a file. *)
Definition no_file_env : Env :=
  {| get_file := fun _ => Raise "BadRequest: File is too big";
     model_generate_content := fun _ => Ok None;
     vision_model_generate_content := fun _ => Ok None;
     PdfReader := fun _ => Ok [];
     utcnow := 1700000000 |}.

(** An answer of 5000 characters. *)
Definition long_answer : string :=
  String.concat "" (replicate 500 "0123456789").

Definition ann : User := {| first_name := "Ann"; username := Some "ann_k" |}.

Definition anna : User := {| first_name := "Anna"; username := None |}.

Definition notes_txt : Document.t :=
  {| Document.file_id := "doc-1"; Document.file_name := "notes.txt" |}.

Definition report_pdf : Document.t :=
  {| Document.file_id := "doc-2"; Document.file_name := "Report.PDF" |}.

(* --------------------------------------------------------------------- *)
(* Strings                                                                *)
(* --------------------------------------------------------------------- *)

Section Strings.

Lemma str_app_cons (c : ascii) (s t : string) :
  String c s +:+ t = String c (s +:+ t).
Proof. reflexivity. Qed.

Lemma str_app_nil_l (t : string) : "" +:+ t = t.
Proof. reflexivity. Qed.

Lemma str_app_nil_r (s : string) : s +:+ "" = s.
Proof. induction s as [|c s IH]; [done|]. by rewrite str_app_cons, IH. Qed.

Lemma str_app_assoc (s t u : string) : (s +:+ t) +:+ u = s +:+ (t +:+ u).
Proof. induction s as [|c s IH]; [done|]. by rewrite !str_app_cons, IH. Qed.

Lemma str_app_eq_nil (s t : string) : s +:+ t = "" -> s = "" /\ t = "".
Proof. destruct s; [done|]. rewrite str_app_cons. discriminate. Qed.

Lemma slice_to_length (n : nat) (s : string) :
  (String.length (Py.slice_to n s) <= n)%nat.
Proof.
  revert s. induction n as [|n IH]; intros [|c s]; simpl; try lia.
  specialize (IH s). lia.
Qed.

Lemma slice_to_slice_from (n : nat) (s : string) :
  s = Py.slice_to n s +:+ Py.slice_from n s.
Proof.
  revert s. induction n as [|n IH]; intros [|c s]; simpl; try done.
  rewrite str_app_cons. f_equal. apply IH.
Qed.

Lemma slice_to_prefix (n : nat) (s : string) : is_prefix (Py.slice_to n s) s.
Proof. exists (Py.slice_from n s). apply slice_to_slice_from. Qed.

Lemma slice_to_short (n : nat) (s : string) :
  (String.length s <= n)%nat -> Py.slice_to n s = s.
Proof.
  revert s. induction n as [|n IH]; intros [|c s]; simpl; intros H;
    try done; try lia.
  f_equal. apply IH. lia.
Qed.

Lemma or_empty_truthy (o : option string) :
  Py.or_empty o = match o with Some s => s | None => "" end.
Proof. destruct o as [[|c s]|]; reflexivity. Qed.

Lemma truthy_false (s : string) : Py.truthy s = false <-> s = "".
Proof. destruct s; simpl; split; congruence. Qed.

End Strings.

(* --------------------------------------------------------------------- *)
(* Running a handler symbolically                                         *)
(* --------------------------------------------------------------------- *)

Arguments Py.slice_to : simpl never.
Arguments mk_dict : simpl never.

Ltac run :=
  unfold bind, ret, call, raise, modify, try_except, reply_text,
    send_action, logger, generate_content, vision_generate_content,
    record_inference, record_extraction;
  cbn [fst snd set_db set_users set_chat_history set_image_analysis
       set_document_analysis insert_one text_or
       db outbox chat_actions log inference_log extraction_log
       users chat_history image_analysis document_analysis].

(** Close the projections of a world that [run] has made explicit. *)
Ltac observe :=
  eexists; split; [reflexivity|];
  unfold logged_errors; run; rewrite ?filter_app, ?filter_cons, ?filter_nil;
  repeat case_decide; try discriminate; try (exfalso; cbn [level] in *; congruence);
  rewrite ?app_nil_r, <- ?app_assoc; auto 10.

(* --------------------------------------------------------------------- *)
(* extract_text_from_pdf                                                  *)
(* --------------------------------------------------------------------- *)

Section Extraction.

Variable env : Env.

Lemma for_each_scan (pages : list Page) (w : World) (acc : string) :
  for_each pages (fun page =>
      extracted <- call (extract_text page) ;;
      text <- get_local ;;
      set_local (text +:+ Py.or_empty extracted)) (w, acc)
  = (fst (scan_pages pages acc), (w, snd (scan_pages pages acc))).
Proof.
  revert acc. induction pages as [|p rest IH]; intros acc; [done|].
  cbn [for_each scan_pages]. unfold bind at 1, call at 1.
  destruct (extract_text p) as [o|e]; [|done].
  unfold bind at 1, get_local at 1, set_local at 1. cbn [fst snd].
  unfold bind at 1. apply IH.
Qed.

Lemma concat_texts_app (l1 l2 : list Page) :
  concat_texts (l1 ++ l2) = concat_texts l1 +:+ concat_texts l2.
Proof.
  induction l1 as [|p l1 IH]; [done|].
  cbn [concat_texts foldr app]. fold (concat_texts (l1 ++ l2)).
  fold (concat_texts l1). by rewrite IH, str_app_assoc.
Qed.

Lemma scan_all_return (pages : list Page) (acc : string) :
  Forall page_returns pages ->
  scan_pages pages acc = (Ok tt, acc +:+ concat_texts pages).
Proof.
  revert acc. induction pages as [|p rest IH]; intros acc Hall.
  - by rewrite str_app_nil_r.
  - inversion Hall as [|? ? [o Ho] Hrest]; subst.
    cbn [scan_pages concat_texts foldr]. fold (concat_texts rest).
    unfold page_text. rewrite Ho, IH by done. by rewrite str_app_assoc.
Qed.

Lemma scan_raise_at (pages : list Page) (k : nat) (p : Page) (e : exn)
    (acc : string) :
  pages !! k = Some p ->
  extract_text p = Raise e ->
  Forall page_returns (take k pages) ->
  scan_pages pages acc = (Raise e, acc +:+ concat_texts (take k pages)).
Proof.
  revert k acc. induction pages as [|q rest IH]; intros k acc Hk He Hpre.
  - done.
  - destruct k as [|k]; simplify_eq/=.
    + by rewrite He, str_app_nil_r.
    + inversion Hpre as [|? ? [o Ho] Hrest]; subst.
      fold (concat_texts (take k rest)). unfold page_text.
      rewrite Ho, (IH k _ Hk He Hrest). by rewrite str_app_assoc.
Qed.

(** One run of [extract_text_from_pdf]: it returns [extracted_text], and
    touches nothing but the logs. *)
Lemma extract_text_from_pdf_run (pdf_bytes : bytes) (w : World) :
  exists errors,
    runs_to (extract_text_from_pdf env pdf_bytes) w
      (Ok (extracted_text env pdf_bytes)) (db w) [] errors [] [pdf_bytes].
Proof.
  unfold runs_to, extract_text_from_pdf, extracted_text, read_pages.
  unfold bind at 1, modify at 1. unfold with_local.
  unfold bind at 1, try_except at 1. unfold bind at 1, call at 1.
  destruct (PdfReader env pdf_bytes) as [pages|e].
  - rewrite for_each_scan.
    destruct (scan_pages pages "") as [[[]|e] acc]; unfold lift, get_local;
      run; [exists []|exists [extraction_error_entry e]]; observe.
  - unfold lift, get_local. run. exists [extraction_error_entry e]. observe.
Qed.

Lemma concat_texts_delete_no_text (pages : list Page) (k : nat) (p : Page) :
  pages !! k = Some p -> page_text p = "" ->
  concat_texts (delete k pages) = concat_texts pages.
Proof.
  intros Hk Hp. rewrite <- (take_drop_middle pages k p Hk) at 2.
  rewrite delete_take_drop, !concat_texts_app.
  cbn [concat_texts foldr]. by rewrite Hp.
Qed.

Lemma concat_texts_nonempty (pages : list Page) (p : Page) :
  p ∈ pages -> page_text p <> "" -> concat_texts pages <> "".
Proof.
  intros Hin Hp. induction Hin as [p rest|p q rest Hin IH].
  - cbn [concat_texts foldr]. intros [? _]%str_app_eq_nil. done.
  - cbn [concat_texts foldr]. intros [_ ?]%str_app_eq_nil. by apply IH.
Qed.

Lemma page_has_text_text (p : Page) : page_has_text p -> page_text p <> "".
Proof.
  intros (t & Ht & Hne). unfold page_text. rewrite Ht.
  by rewrite or_empty_truthy.
Qed.

Lemma page_has_text_returns (p : Page) : page_has_text p -> page_returns p.
Proof. intros (t & Ht & _). by exists (Some t). Qed.

Lemma page_no_text_returns (p : Page) : page_no_text p -> page_returns p.
Proof. intros (o & Ho & _). by exists o. Qed.

End Extraction.

(** C9. [extract_text_from_pdf] is total: on every input it returns a
    string and never raises.  When the reader itself raises the string is
    empty, and when the extraction of page [k] raises (the pages before it
    having returned) the string is the texts of pages 0 to [k-1] joined in
    order: page [k] and the pages after it contribute nothing. *)
Theorem extract_text_from_pdf_total (env : Env) (pdf_bytes : bytes)
    (w : World) :
  exists (s : string) (w' : World),
    extract_text_from_pdf env pdf_bytes w = (Ok s, w') /\
    (forall e, PdfReader env pdf_bytes = Raise e -> s = "") /\
    (forall pages k p e,
        PdfReader env pdf_bytes = Ok pages ->
        pages !! k = Some p ->
        extract_text p = Raise e ->
        Forall page_returns (take k pages) ->
        s = concat_texts (take k pages)).
Proof.
  destruct (extract_text_from_pdf_run env pdf_bytes w)
    as (errors & w' & Hrun & _).
  exists (extracted_text env pdf_bytes), w'. split; [exact Hrun|].
  unfold extracted_text. split.
  - intros e ->. reflexivity.
  - intros pages k p e -> Hk He Hpre.
    by rewrite (scan_raise_at pages k p e "" Hk He Hpre).
Qed.

Lemma extract_text_from_pdf_total_witness :
  exists (s : string) (w' : World),
    extract_text_from_pdf (sample_env None three_pages) [] empty_world
      = (Ok s, w') /\
    s = "ab".
Proof.
  destruct (extract_text_from_pdf_total (sample_env None three_pages) []
              empty_world) as (s & w' & Hrun & _ & Hk).
  exists s, w'. split; [exact Hrun|].
  apply (Hk three_pages 1%nat
            {| extract_text := Raise "cannot decode page" |}
            "cannot decode page");
    [reflexivity | reflexivity | reflexivity |].
  repeat constructor. by exists (Some "ab").
Defined.

(** C3, as the specification words it: any failure of one page, raising
    included, would leave the text of the other pages.  It does not hold:
    a page that raises ends the loop, and the pages after it are lost. *)
Lemma raising_page_is_not_skipped : ~ skips_failing_page page_fails.
Proof.
  intros H.
  destruct (H (sample_env None three_pages) [] empty_world three_pages 1%nat)
    as [Htext _].
  - reflexivity.
  - split.
    + eexists. split; [reflexivity|]. left. by eexists.
    + intros j p Hj Hp.
      destruct j as [|[|[|j]]]; simplify_eq/=; eexists; by split.
  - vm_compute in Htext. discriminate.
Qed.

(** C3, amended.  When the one failing page returns no text ([None] or the
    empty string) without raising, the extracted text is the texts of the
    other pages joined in page order, and it is empty only when there is
    no other page.  When the one failing page raises, the text is that of
    the pages before it. *)
Theorem page_without_text_is_skipped :
  skips_failing_page page_no_text /\
  (forall (env : Env) (pdf_bytes : bytes) (w : World) (pages : list Page)
          (k : nat),
      PdfReader env pdf_bytes = Ok pages ->
      only_page_failing page_raises pages k ->
      fst (extract_text_from_pdf env pdf_bytes w)
        = Ok (concat_texts (take k pages))).
Proof.
  split.
  - intros env pdf_bytes w pages k Hread [(p & Hk & Hp) Hothers].
    destruct (extract_text_from_pdf_run env pdf_bytes w)
      as (errors & w' & -> & _).
    cbn [fst]. unfold extracted_text. rewrite Hread.
    assert (Forall page_returns pages) as Hall.
    { apply Forall_lookup. intros j q Hq.
      destruct (decide (j = k)) as [->|Hne].
      - simplify_eq. by apply page_no_text_returns.
      - eapply page_has_text_returns, Hothers; eauto. }
    rewrite (scan_all_return pages "" Hall). cbn [snd].
    assert (page_text p = "") as Hempty.
    { destruct Hp as (o & Ho & Hoe). unfold page_text. by rewrite Ho. }
    rewrite str_app_nil_l, (concat_texts_delete_no_text pages k p Hk Hempty).
    split; [done|].
    intros Hlen [= Heq].
    destruct (decide (k = 0%nat)) as [->|Hk0].
    + destruct pages as [|p0 [|p1 rest]]; simpl in Hlen; try lia.
      assert (page_has_text p1) as H1 by (by apply (Hothers 1%nat)).
      revert Heq. apply (concat_texts_nonempty _ p1); [set_solver|].
      by apply page_has_text_text.
    + destruct pages as [|p0 rest]; simpl in Hlen; try lia.
      assert (page_has_text p0) as H0 by (by apply (Hothers 0%nat)).
      revert Heq. apply (concat_texts_nonempty _ p0); [set_solver|].
      by apply page_has_text_text.
  - intros env pdf_bytes w pages k Hread [(p & Hk & [e He]) Hothers].
    destruct (extract_text_from_pdf_run env pdf_bytes w)
      as (errors & w' & -> & _).
    cbn [fst]. unfold extracted_text. rewrite Hread.
    rewrite (scan_raise_at pages k p e "" Hk He); [done|].
    apply Forall_lookup. intros j q Hq.
    apply lookup_take_Some in Hq as [Hq Hlt].
    eapply page_has_text_returns, Hothers; [|exact Hq]. lia.
Qed.

Lemma page_without_text_is_skipped_witness :
  fst (extract_text_from_pdf (sample_env None blank_middle_pages) []
         empty_world) = Ok "abcd".
Proof.
  destruct page_without_text_is_skipped as [Hskip _].
  destruct (Hskip (sample_env None blank_middle_pages) [] empty_world
              blank_middle_pages 1%nat) as [Htext _].
  - reflexivity.
  - split.
    + eexists. split; [reflexivity|]. exists None. by split.
    + intros j p Hj Hp.
      destruct j as [|[|[|j]]]; simplify_eq/=; eexists; by split.
  - exact Htext.
Defined.

(* --------------------------------------------------------------------- *)
(* What each handler does, case by case                                   *)
(* --------------------------------------------------------------------- *)

Section Handlers.

Variable env : Env.

Lemma handle_message_run (chat_id : Z) (message : string) (w : World) :
  match model_generate_content env message with
  | Ok response =>
      let response_text := text_or response "I couldn't process that." in
      runs_to (handle_message env chat_id message) w (Ok tt)
        (set_chat_history
           (insert_one (chat_record env chat_id message response_text)) (db w))
        [text_reply chat_id (Py.slice_to max_reply_length response_text)] []
        [(TextCall message, Ok response)] []
  | Raise e =>
      runs_to (handle_message env chat_id message) w (Raise e) (db w)
        [] [] [(TextCall message, Raise e)] []
  end.
Proof.
  unfold runs_to, handle_message, save_chat_history. run.
  destruct (model_generate_content env message) as [response|e]; run;
    observe.
Qed.

Lemma handle_photo_run (chat_id : Z) (photos : list PhotoSize.t) (w : World) :
  let sorry :=
    text_reply chat_id
      "There was an error analyzing the image. Please try again later." in
  match last photos with
  | None =>
      runs_to (handle_photo env chat_id photos) w
        (Raise "IndexError: list index out of range") (db w) [] [] [] []
  | Some photo =>
      match get_file env (PhotoSize.file_id photo) with
      | Raise e =>
          runs_to (handle_photo env chat_id photos) w (Raise e) (db w)
            [] [] [] []
      | Ok file =>
          match download_as_bytearray file with
          | Raise e =>
              runs_to (handle_photo env chat_id photos) w (Ok tt) (db w)
                [sorry] [image_error_entry e] [] []
          | Ok image_bytes =>
              match vision_model_generate_content env image_bytes with
              | Raise e =>
                  runs_to (handle_photo env chat_id photos) w (Ok tt) (db w)
                    [sorry] [image_error_entry e]
                    [(VisionCall image_bytes, Raise e)] []
              | Ok response =>
                  let analysis :=
                    text_or response "Could not analyze the image." in
                  runs_to (handle_photo env chat_id photos) w (Ok tt)
                    (set_image_analysis
                       (insert_one
                          (image_record env chat_id (file_path file) analysis))
                       (db w))
                    [text_reply chat_id (Py.slice_to max_reply_length analysis)] []
                    [(VisionCall image_bytes, Ok response)] []
              end
          end
      end
  end.
Proof.
  unfold runs_to, handle_photo, last_item. run.
  destruct (last photos) as [photo|]; run; [|observe].
  destruct (get_file env (PhotoSize.file_id photo)) as [file|e]; run;
    [|observe].
  destruct (download_as_bytearray file) as [image_bytes|e]; run; [|observe].
  destruct (vision_model_generate_content env image_bytes) as [response|e];
    run; observe.
Qed.

Lemma save_user_run (user_data : dict) (c : value) (w : World) :
  user_data !! "chat_id" = Some c ->
  runs_to (save_user user_data) w (Ok tt)
    (set_users (update_one_set_upsert "chat_id" c user_data) (db w))
    [] [] [] [].
Proof.
  intros Hc. unfold runs_to, save_user. rewrite Hc. run. observe.
Qed.

Lemma start_run (chat_id : Z) (user : User) (w : World) :
  runs_to (start chat_id user) w (Ok tt)
    (set_users
       (update_one_set_upsert "chat_id" (VInt chat_id)
          (registration_data chat_id user))
       (db w))
    [{| to_chat := chat_id;
        body := "Hello! Please share your contact to complete registration.";
        reply_markup :=
          Some {| keyboard :=
                    [[{| label := "Share Contact";
                         request_contact := true |}]];
                  one_time_keyboard := true |} |}]
    [] [] [].
Proof.
  unfold runs_to, start, save_user.
  replace (mk_dict _ !! "chat_id") with (Some (VInt chat_id))
    by (symmetry; unfold mk_dict; cbn [foldl fst snd]; by simplify_map_eq).
  run. observe.
Qed.

Lemma handle_contact_run (chat_id : Z) (contact : Contact) (w : World) :
  runs_to (handle_contact chat_id contact) w (Ok tt)
    (set_users
       (update_one_set_upsert "chat_id" (VInt chat_id)
          (contact_data chat_id contact))
       (db w))
    [text_reply chat_id "Thanks for sharing your contact!"] [] [] [].
Proof.
  unfold runs_to, handle_contact, save_user.
  replace (mk_dict _ !! "chat_id") with (Some (VInt chat_id))
    by (symmetry; unfold mk_dict; cbn [foldl fst snd]; by simplify_map_eq).
  run. observe.
Qed.

Lemma web_search_run (chat_id : Z) (args : list string) (w : World) :
  match args with
  | [] =>
      runs_to (web_search env chat_id args) w (Ok tt) (db w)
        [text_reply chat_id "Please provide a search query after /websearch"]
        [] [] []
  | _ :: _ =>
      let prompt :=
        "Search the web for: " +:+ Py.join " " args
          +:+ " and summarize the top results." in
      match model_generate_content env prompt with
      | Ok response =>
          runs_to (web_search env chat_id args) w (Ok tt) (db w)
            [text_reply chat_id
               (Py.slice_to max_reply_length (text_or response "No search results found."))]
            [] [(TextCall prompt, Ok response)] []
      | Raise e =>
          runs_to (web_search env chat_id args) w (Raise e) (db w)
            [] [] [(TextCall prompt, Raise e)] []
      end
  end.
Proof.
  unfold runs_to, web_search. destruct args as [|a args]; run; [observe|].
  destruct (model_generate_content env _) as [response|e]; run; observe.
Qed.

Lemma handle_document_run (chat_id : Z) (document : Document.t) (w : World) :
  let handler := handle_document env chat_id document in
  match get_file env (Document.file_id document) with
  | Raise e => runs_to handler w (Raise e) (db w) [] [] [] []
  | Ok file =>
      let finished analysis :=
        runs_to handler w (Ok tt)
          (set_document_analysis
             (insert_one
                (document_record env chat_id (file_path file) analysis))
             (db w))
          [text_reply chat_id (Py.slice_to max_reply_length analysis)] in
      if Py.endswith (Py.lower (Document.file_name document)) ".pdf" then
        match download_as_bytearray file with
        | Raise e => runs_to handler w (Raise e) (db w) [] [] [] []
        | Ok file_bytes =>
            let text := extracted_text env file_bytes in
            exists errors,
              if Py.truthy text then
                match model_generate_content env text with
                | Ok response =>
                    finished
                      (text_or response "Could not summarize the document.")
                      errors [(TextCall text, Ok response)] [file_bytes]
                | Raise e =>
                    runs_to handler w (Raise e) (db w) [] errors
                      [(TextCall text, Raise e)] [file_bytes]
                end
              else
                finished "No readable text found in the PDF." errors []
                  [file_bytes]
        end
      else finished "Unsupported document type." [] [] []
  end.
Proof.
  unfold handle_document. cbn zeta.
  destruct (get_file env (Document.file_id document)) as [file|e];
    [|unfold runs_to; run; observe].
  destruct (Py.endswith _ _); [|unfold runs_to; run; observe].
  destruct (download_as_bytearray file) as [file_bytes|e] eqn:Hdl;
    [|unfold runs_to; run; rewrite Hdl; observe].
  unfold runs_to. run. rewrite Hdl. run.
  match goal with
  | |- context [extract_text_from_pdf env file_bytes ?w0] =>
      destruct (extract_text_from_pdf_run env file_bytes w0)
        as (errors & w1 & Hrun & Hdb & Hout & Herr & Hinf & Hext)
  end.
  exists errors. rewrite Hrun. cbn iota beta.
  unfold logged_errors in *. cbn [db outbox log inference_log extraction_log]
    in Hdb, Hout, Herr, Hinf, Hext.
  rewrite filter_app, filter_cons, filter_nil in Herr.
  case_decide; [discriminate|]. rewrite app_nil_r in *.
  destruct (Py.truthy (extracted_text env file_bytes)).
  - destruct (model_generate_content env _) as [response|e];
      (eexists; split; [reflexivity|]); run;
      rewrite Hdb, Hout, Herr, Hinf, Hext, <- ?app_assoc; auto 10.
  - (eexists; split; [reflexivity|]); run.
    rewrite Hdb, Hout, Herr, Hinf, Hext, ?app_nil_r. auto 10.
Qed.

End Handlers.

(* --------------------------------------------------------------------- *)
(* From a run to what the statements observe                              *)
(* --------------------------------------------------------------------- *)

Lemma runs_to_obs {A} (m : M World A) (w : World) (r : Result A) (d : Db)
    replies errors inferences extractions :
  runs_to m w r d replies errors inferences extractions ->
  fst (m w) = r /\
  db (snd (m w)) = d /\
  new_replies w (snd (m w)) = replies /\
  logged_errors (snd (m w)) = logged_errors w ++ errors /\
  new_inferences w (snd (m w)) = inferences /\
  new_extractions w (snd (m w)) = extractions.
Proof.
  intros (w' & -> & Hdb & Hout & Herr & Hinf & Hext). cbn [fst snd].
  unfold new_replies, new_inferences, new_extractions.
  rewrite Hout, Hinf, Hext, !drop_app_length. auto 10.
Qed.

Lemma ret_run (w : World) :
  runs_to (ret tt) w (Ok tt) (db w) [] [] [] [].
Proof. unfold runs_to, ret. exists w. rewrite !app_nil_r. auto 10. Qed.

Lemma chat_record_text (env : Env) (chat_id : Z) (message r : string) :
  chat_record env chat_id message r !! "bot_response" = Some (VStr r).
Proof.
  unfold chat_record, mk_dict. cbn [foldl fst snd]. by simplify_map_eq.
Qed.

Lemma chat_record_chat_id (env : Env) (chat_id : Z) (message r : string) :
  chat_record env chat_id message r !! "chat_id" = Some (VInt chat_id).
Proof.
  unfold chat_record, mk_dict. cbn [foldl fst snd]. by simplify_map_eq.
Qed.

Lemma image_record_text (env : Env) (chat_id : Z) (path r : string) :
  image_record env chat_id path r !! "description" = Some (VStr r).
Proof.
  unfold image_record, mk_dict. cbn [foldl fst snd]. by simplify_map_eq.
Qed.

Lemma image_record_chat_id (env : Env) (chat_id : Z) (path r : string) :
  image_record env chat_id path r !! "chat_id" = Some (VInt chat_id).
Proof.
  unfold image_record, mk_dict. cbn [foldl fst snd]. by simplify_map_eq.
Qed.

Lemma document_record_text (env : Env) (chat_id : Z) (path r : string) :
  document_record env chat_id path r !! "description" = Some (VStr r).
Proof.
  unfold document_record, mk_dict. cbn [foldl fst snd]. by simplify_map_eq.
Qed.

Lemma document_record_chat_id (env : Env) (chat_id : Z) (path r : string) :
  document_record env chat_id path r !! "chat_id" = Some (VInt chat_id).
Proof.
  unfold document_record, mk_dict. cbn [foldl fst snd]. by simplify_map_eq.
Qed.

(** Read a field of a record a handler has built. *)
Ltac record_field :=
  lazymatch goal with
  | |- chat_record _ _ _ _ !! "bot_response" = _ => apply chat_record_text
  | |- chat_record _ _ _ _ !! "chat_id" = _ => apply chat_record_chat_id
  | |- image_record _ _ _ _ !! "description" = _ => apply image_record_text
  | |- image_record _ _ _ _ !! "chat_id" = _ => apply image_record_chat_id
  | |- document_record _ _ _ _ !! "description" = _ =>
      apply document_record_text
  | |- document_record _ _ _ _ !! "chat_id" = _ =>
      apply document_record_chat_id
  end.

Lemma within_limit (n : nat) :
  (n <=? max_reply_length)%nat = true -> (n <= max_reply_length)%nat.
Proof. apply Nat.leb_le. Qed.

Lemma app_one_neq {A} (l : list A) (x : A) : l ++ [x] <> l.
Proof.
  intros H. apply (f_equal length) in H. rewrite length_app in H.
  simpl in H. lia.
Qed.

(** Split a run lemma into its cases. *)
Ltac cases_of H :=
  cbn zeta in H;
  repeat match type of H with
         | match ?x with _ => _ end => destruct x eqn:?
         | ex _ => destruct H as [? H]
         end;
  apply runs_to_obs in H;
  destruct H as (Hres & Hdb & Hrep & Herr & Hinf & Hext).

(** The run lemma of the handler an event is dispatched to. *)
Ltac dispatch_run env chat_id ev w H :=
  destruct ev as [name args user|contact|message|photos|document];
  cbn [dispatch];
  [ destruct (bool_decide (name = "start"));
    [ pose proof (start_run chat_id user w) as H
    | destruct (bool_decide (name = "websearch"));
      [ pose proof (web_search_run env chat_id args w) as H
      | pose proof (ret_run w) as H ] ]
  | pose proof (handle_contact_run chat_id contact w) as H
  | pose proof (handle_message_run env chat_id message w) as H
  | pose proof (handle_photo_run env chat_id photos w) as H
  | pose proof (handle_document_run env chat_id document w) as H ].

(* --------------------------------------------------------------------- *)
(* Some runs                                                              *)
(* --------------------------------------------------------------------- *)

Example endswith_pdf :
  Py.endswith (Py.lower "Report.PDF") ".pdf" = true /\
  Py.endswith (Py.lower "notes.txt") ".pdf" = false /\
  Py.endswith (Py.lower "pdf") ".pdf" = false.
Proof. repeat split; reflexivity. Qed.

Example join_args : Py.join " " ["rocq"; "proof"; "assistant"]
                    = "rocq proof assistant".
Proof. reflexivity. Qed.

(** A PDF whose pages give no text: the fixed answer, one record, and no
    call of the model. *)
Example pdf_without_text :
  let pages := [ {| extract_text := Ok None |};
                 {| extract_text := Ok (Some "") |} ] in
  let run :=
    dispatch (sample_env None pages) 123 (DocumentMessage report_pdf)
      empty_world in
  fst run = Ok tt /\
  outbox (snd run) = [text_reply 123 "No readable text found in the PDF."] /\
  length (document_analysis (db (snd run))) = 1%nat /\
  inference_log (snd run) = [] /\
  extraction_log (snd run) = [[]].
Proof. vm_compute. repeat split; reflexivity. Qed.

(** A PDF that cannot be opened: the same answer. *)
Example pdf_unreadable :
  let env :=
    {| get_file := fun _ => Ok sample_file;
       model_generate_content := fun _ => Ok None;
       vision_model_generate_content := fun _ => Ok None;
       PdfReader := fun _ => Raise "PdfReadError: EOF marker not found";
       utcnow := 1700000000 |} in
  let run := dispatch env 123 (DocumentMessage report_pdf) empty_world in
  fst run = Ok tt /\
  outbox (snd run) = [text_reply 123 "No readable text found in the PDF."] /\
  inference_log (snd run) = [] /\
  logged_errors (snd run)
    = [extraction_error_entry "PdfReadError: EOF marker not found"].
Proof. vm_compute. repeat split; reflexivity. Qed.

(* --------------------------------------------------------------------- *)
(* The handlers                                                           *)
(* --------------------------------------------------------------------- *)

Lemma join_cons_app (sep p b : string) (rest : list string) :
  Py.join sep ((p +:+ b) :: rest) = p +:+ Py.join sep (b :: rest).
Proof. destruct rest; cbn [Py.join]; by rewrite ?str_app_assoc. Qed.

Lemma join_space_joined (args : list string) :
  Py.join " " args = space_joined args.
Proof.
  destruct args as [|first others]; [done|]. cbn [space_joined].
  revert first. induction others as [|b others IH]; intros first; [done|].
  cbn [foldl]. rewrite <- IH, !join_cons_app. reflexivity.
Qed.

Lemma contains_app_l (s sub p : string) : contains s sub -> contains (p +:+ s) sub.
Proof.
  intros (pre & post & ->). exists (p +:+ pre), post.
  by rewrite !str_app_assoc.
Qed.

Lemma contains_app_r (s sub q : string) : contains s sub -> contains (s +:+ q) sub.
Proof.
  intros (pre & post & ->). exists pre, (post +:+ q).
  by rewrite !str_app_assoc.
Qed.

Lemma contains_refl (s : string) : contains s s.
Proof. exists "", "". by rewrite str_app_nil_r. Qed.

Lemma join_contains (sep : string) (args : list string) :
  Forall (contains (Py.join sep args)) args.
Proof.
  induction args as [|a [|b rest] IH].
  - constructor.
  - repeat constructor. apply contains_refl.
  - change (Py.join sep (a :: b :: rest))
      with (a +:+ sep +:+ Py.join sep (b :: rest)).
    constructor.
    + apply contains_app_r, contains_refl.
    + eapply Forall_impl; [exact IH|]. intros x Hx.
      by apply contains_app_l, contains_app_l.
Qed.

(** C6. A /websearch command with no argument is answered with the usage
    message and calls no model.  With arguments it calls the text model
    exactly once, on the fixed prompt wrapped around the arguments
    written in order with a single space between neighbours; every
    argument occurs in that prompt.  In both cases the store is left as
    it was: no record of any kind is written. *)
Theorem websearch_command (env : Env) (chat_id : Z) (args : list string)
    (user : User) (w : World) :
  let w' := snd (dispatch env chat_id (Command "websearch" args user) w) in
  db w' = db w /\
  match args with
  | [] =>
      new_replies w w'
        = [text_reply chat_id "Please provide a search query after /websearch"]
      /\ new_inferences w w' = []
  | _ :: _ =>
      let prompt :=
        "Search the web for: " +:+ space_joined args
          +:+ " and summarize the top results." in
      new_inferences w w'
        = [(TextCall prompt, model_generate_content env prompt)] /\
      contains prompt (space_joined args) /\
      Forall (contains prompt) args
  end.
Proof.
  cbn [dispatch]. rewrite bool_decide_false by done.
  rewrite bool_decide_true by done.
  pose proof (web_search_run env chat_id args w) as H.
  pose proof (join_space_joined args) as Hjoin.
  pose proof (join_contains " " args) as Hall.
  destruct args as [|a args]; cases_of H; cbn zeta; rewrite ?Hdb, ?Hrep, ?Hinf;
    try (repeat split; done).
  all: rewrite <- Hjoin; split; [done|]; split; [by rewrite Heqr|]; split.
  all: try (apply contains_app_l, contains_app_r, contains_refl).
  all: eapply Forall_impl; [exact Hall|]; intros x Hx;
    by apply contains_app_l, contains_app_r.
Qed.

(** C4. Whatever the event, every reply its handler sends has at most 4096
    characters; and when a model returned an output, of any length, the
    handler sends exactly one reply, whose text is the first 4096
    characters of that output: at most 4096 long and a prefix of it. *)
Theorem reply_is_bounded_prefix (env : Env) (chat_id : Z) (ev : Event)
    (w : World) :
  let w' := snd (dispatch env chat_id ev w) in
  (forall r, r ∈ new_replies w w' -> (String.length (body r) <= 4096)%nat) /\
  (forall c resp,
      (c, Ok (Some resp)) ∈ new_inferences w w' ->
      new_replies w w'
        = [text_reply chat_id (Py.slice_to max_reply_length (text resp))] /\
      (String.length (Py.slice_to max_reply_length (text resp)) <= 4096)%nat /\
      is_prefix (Py.slice_to max_reply_length (text resp)) (text resp)).
Proof.
  change 4096%nat with max_reply_length.
  dispatch_run env chat_id ev w H; cases_of H; cbn zeta;
    rewrite ?Hrep, ?Hinf.
  all: split; [intros r Hr|intros c resp Hc].
  all: try (apply list_elem_of_singleton in Hr as ->; cbn [body text_reply]).
  all: try (by apply elem_of_nil in Hr).
  all: try (by apply elem_of_nil in Hc).
  all: try apply slice_to_length.
  all: try (apply within_limit; vm_compute; reflexivity).
  all: apply list_elem_of_singleton in Hc; simplify_eq; cbn [text_or].
  all: split; [reflexivity|split; [apply slice_to_length|apply slice_to_prefix]].
Qed.

Lemma reply_is_bounded_prefix_witness :
  let w' :=
    snd (dispatch (sample_env (Some {| text := long_answer |}) []) 123
           (TextMessage "Hello") empty_world) in
  String.length long_answer = 5000%nat /\
  new_replies empty_world w'
    = [text_reply 123 (Py.slice_to max_reply_length long_answer)] /\
  (String.length (Py.slice_to max_reply_length long_answer) <= 4096)%nat /\
  is_prefix (Py.slice_to max_reply_length long_answer) long_answer.
Proof.
  cbn zeta. split; [vm_compute; reflexivity|].
  destruct (reply_is_bounded_prefix
              (sample_env (Some {| text := long_answer |}) []) 123
              (TextMessage "Hello") empty_world) as [Hlen Hout].
  destruct (Hout (TextCall "Hello") {| text := long_answer |})
    as (Hrep & _ & Hpre).
  { vm_compute. apply list_elem_of_singleton. reflexivity. }
  split; [exact Hrep|]. split; [|exact Hpre].
  apply (Hlen (text_reply 123 (Py.slice_to max_reply_length long_answer))).
  rewrite Hrep. apply list_elem_of_singleton. reflexivity.
Defined.




(** C5, as the specification words it: every document with an unsupported
    name would get the fixed text, one record and one reply.  It does not
    hold: the file is looked up before the name is examined, and when the
    lookup raises the handler stops with no record and no reply. *)
Lemma unsupported_document_needs_file :
  ~ (forall (env : Env) (chat_id : Z) (document : Document.t) (w : World),
        unsupported document ->
        unsupported_document_outcome env chat_id document w).
Proof.
  intros H.
  destruct (H no_file_env 123 notes_txt empty_world) as (_ & Hrep & _).
  - reflexivity.
  - vm_compute in Hrep. discriminate.
Qed.

(** C5, amended.  A document whose name does not end in [.pdf] never
    leads to a call of a model or of the extractor; and when the
    transport resolves its file, the handler appends exactly one record
    to [document_analysis] and sends one reply, both with the text
    "Unsupported document type." *)
Theorem unsupported_document (env : Env) (chat_id : Z)
    (document : Document.t) (w : World) :
  unsupported document ->
  let w' := snd (dispatch env chat_id (DocumentMessage document) w) in
  (new_inferences w w' = [] /\ new_extractions w w' = []) /\
  (forall file,
      get_file env (Document.file_id document) = Ok file ->
      unsupported_document_outcome env chat_id document w).
Proof.
  intros Hun. unfold unsupported in Hun. unfold unsupported_document_outcome.
  cbn [dispatch]. cbn zeta.
  pose proof (handle_document_run env chat_id document w) as H.
  cbn zeta in H. rewrite Hun in H.
  destruct (get_file env (Document.file_id document)) as [file|e];
    apply runs_to_obs in H;
    destruct H as (Hres & Hdb & Hrep & Herr & Hinf & Hext).
  - split; [done|]. intros ? _. rewrite Hdb, Hrep, Hinf, Hext.
    repeat split; try done. eexists. split; [by repeat split|].
    record_field.
  - split; [done|]. intros file [=].
Qed.

Lemma unsupported_document_witness :
  unsupported_document_outcome (sample_env None []) 123 notes_txt empty_world.
Proof.
  destruct (unsupported_document (sample_env None []) 123 notes_txt
              empty_world) as [_ H].
  - reflexivity.
  - apply (H sample_file). reflexivity.
Defined.

(** C8, as the specification words it.  It does not hold: the fallback
    stands in only for an absent response, and a response whose text is
    empty is stored and sent as it is. *)
Lemma absent_and_empty_differ : ~ absent_and_empty_agree.
Proof.
  intros H.
  destruct (H (sample_env None []) 123 (TextMessage "Hello") empty_world I)
    as [_ Hout].
  vm_compute in Hout. discriminate.
Qed.

(** C8, amended.  For a text, photo or document event: when the model
    returns no response, the one record written and the one reply sent
    hold the handler's fallback string; when it returns a response, they
    hold the text of the response (the reply its first 4096 characters),
    the empty string included.  No fallback string is empty, so the two
    cases differ. *)
Theorem absent_and_empty_answers (env : Env) (chat_id : Z) (ev : Event)
    (w : World) :
  content_event ev ->
  let w' := snd (dispatch env chat_id ev w) in
  (forall c,
      (c, Ok None) ∈ new_inferences w w' ->
      exists rec,
        appends_record ev (db w) (db w') rec /\
        rec !! text_field ev = Some (VStr (inference_fallback ev)) /\
        new_replies w w' = [text_reply chat_id (inference_fallback ev)]) /\
  (forall c resp,
      (c, Ok (Some resp)) ∈ new_inferences w w' ->
      exists rec,
        appends_record ev (db w) (db w') rec /\
        rec !! text_field ev = Some (VStr (text resp)) /\
        new_replies w w'
          = [text_reply chat_id (Py.slice_to max_reply_length (text resp))]) /\
  inference_fallback ev <> "".
Proof.
  intros Hev.
  dispatch_run env chat_id ev w H; try done; cases_of H; cbn zeta;
    rewrite ?Hdb, ?Hrep, ?Hinf.
  all: split; [intros c Hc|split; [intros c resp Hc|done]].
  all: try (by apply elem_of_nil in Hc).
  all: apply list_elem_of_singleton in Hc; simplify_eq.
  all: cbn [text_or text_field inference_fallback].
  all: eexists; (split; [by repeat split|]).
  all: (split; [record_field|]).
  all: try reflexivity.
  all: by rewrite slice_to_short by (apply within_limit; vm_compute; reflexivity).
Qed.

Lemma absent_and_empty_answers_witness :
  let ev := TextMessage "Hello" in
  let absent := snd (dispatch (sample_env None []) 123 ev empty_world) in
  let empty :=
    snd (dispatch (sample_env (Some {| text := "" |}) []) 123 ev
           empty_world) in
  new_replies empty_world absent = [text_reply 123 "I couldn't process that."]
  /\ new_replies empty_world empty = [text_reply 123 ""].
Proof.
  cbn zeta. split.
  - destruct (absent_and_empty_answers (sample_env None []) 123
                (TextMessage "Hello") empty_world I) as (Habsent & _ & _).
    destruct (Habsent (TextCall "Hello")) as (rec & _ & _ & Hrep).
    + vm_compute. apply list_elem_of_singleton. reflexivity.
    + exact Hrep.
  - destruct (absent_and_empty_answers
                (sample_env (Some {| text := "" |}) []) 123
                (TextMessage "Hello") empty_world I) as (_ & Hpresent & _).
    destruct (Hpresent (TextCall "Hello") {| text := "" |})
      as (rec & _ & _ & Hrep).
    + vm_compute. apply list_elem_of_singleton. reflexivity.
    + exact Hrep.
Defined.

(** C2.  When the text model raises, [handle_message] catches nothing: the
    exception leaves the handler, no reply is sent and no record is
    written.  [handle_photo], in the same environment, catches the
    exception of its model and answers with its apology. *)
Example inference_failure_escapes_handle_message :
  let text_run :=
    dispatch model_down_env 123 (TextMessage "Hello") empty_world in
  let photo_run :=
    dispatch model_down_env 123
      (PhotoMessage [ {| PhotoSize.file_id := "photo-9" |} ]) empty_world in
  fst text_run = Raise "ServiceUnavailable" /\
  outbox (snd text_run) = [] /\
  chat_history (db (snd text_run)) = [] /\
  fst photo_run = Ok tt /\
  outbox (snd photo_run)
    = [text_reply 123
         "There was an error analyzing the image. Please try again later."].
Proof. vm_compute. repeat split; reflexivity. Qed.

(* --------------------------------------------------------------------- *)
(* The users collection                                                   *)
(* --------------------------------------------------------------------- *)

Section Upsert.

Variables (key : string) (v : value) (data : dict).
Hypothesis data_key : data !! key = Some v.

Lemma upsert_new_matches : (data ∪ {[ key := v ]} : dict) !! key = Some v.
Proof. by apply lookup_union_Some_l. Qed.

Lemma upsert_old_matches (d : dict) : (data ∪ d) !! key = Some v.
Proof. by apply lookup_union_Some_l. Qed.

(** The documents that match the filter, before and after. *)
Lemma upsert_filter (coll : list dict) :
  filter (fun d : dict => d !! key = Some v)
    (update_one_set_upsert key v data coll)
  = match filter (fun d : dict => d !! key = Some v) coll with
    | [] => [data ∪ {[ key := v ]}]
    | d :: rest => (data ∪ d) :: rest
    end.
Proof.
  induction coll as [|d coll IH]; cbn [update_one_set_upsert].
  - rewrite filter_cons, filter_nil.
    rewrite decide_True by apply upsert_new_matches. done.
  - case_bool_decide as Hd.
    + rewrite !filter_cons, decide_True by apply upsert_old_matches.
      by rewrite decide_True by done.
    + rewrite !filter_cons, !decide_False by done. exact IH.
Qed.

Lemma upsert_idempotent (coll : list dict) :
  update_one_set_upsert key v data (update_one_set_upsert key v data coll)
  = update_one_set_upsert key v data coll.
Proof.
  induction coll as [|d coll IH]; cbn [update_one_set_upsert].
  - rewrite bool_decide_true by apply upsert_new_matches.
    by rewrite (assoc_L (∪)), (idemp_L (∪)).
  - case_bool_decide as Hd; cbn [update_one_set_upsert].
    + rewrite bool_decide_true by apply upsert_old_matches.
      by rewrite (assoc_L (∪)), (idemp_L (∪)).
    + rewrite bool_decide_false by done. by rewrite IH.
Qed.

(** Position by position: a document is kept, or it matched the filter
    and has [data] written over it. *)
Lemma upsert_lookup (coll : list dict) (i : nat) (d : dict) :
  coll !! i = Some d ->
  exists d',
    update_one_set_upsert key v data coll !! i = Some d' /\
    (d' = d \/ (d !! key = Some v /\ d' = data ∪ d)).
Proof.
  revert i. induction coll as [|d0 coll IH]; intros i Hi; [done|].
  cbn [update_one_set_upsert]. case_bool_decide as Hd.
  - destruct i as [|i]; simplify_eq/=; eauto.
  - destruct i as [|i]; simplify_eq/=; eauto.
Qed.

(** The documents that match another value of the key are untouched. *)
Lemma upsert_filter_other (v' : value) (coll : list dict) :
  v' <> v ->
  filter (fun d : dict => d !! key = Some v')
    (update_one_set_upsert key v data coll)
  = filter (fun d : dict => d !! key = Some v') coll.
Proof.
  intros Hne. induction coll as [|d coll IH]; cbn [update_one_set_upsert].
  - rewrite filter_cons, filter_nil, decide_False; [done|].
    rewrite upsert_new_matches. congruence.
  - case_bool_decide as Hd.
    + rewrite !filter_cons, !decide_False; [done|congruence|].
      rewrite upsert_old_matches. congruence.
    + rewrite !filter_cons. case_decide; by rewrite IH.
Qed.

End Upsert.

Lemma registration_data_lookup (chat_id : Z) (user : User) :
  registration_data chat_id user !! "chat_id" = Some (VInt chat_id) /\
  registration_data chat_id user !! "first_name"
    = Some (VStr (first_name user)) /\
  registration_data chat_id user !! "username"
    = Some (opt_str (username user)).
Proof.
  unfold registration_data, mk_dict. cbn [foldl fst snd]. by simplify_map_eq.
Qed.

Lemma contact_data_lookup (chat_id : Z) (contact : Contact) (k : string) :
  contact_data chat_id contact !! "chat_id" = Some (VInt chat_id) /\
  (k <> "chat_id" -> k <> "phone_number" ->
   contact_data chat_id contact !! k = None).
Proof.
  unfold contact_data, mk_dict. cbn [foldl fst snd].
  split; [by simplify_map_eq|]. intros ? ?. by simplify_map_eq.
Qed.

(** X22. In every world the bot reaches from an empty store, whatever
    the events and the collaborators, a chat has at most one profile. *)
Lemma reachable_at_most_one_profile (w : World) (c : Z) :
  reachable w -> (length (profiles_of c w) <= 1)%nat.
Proof.
  induction 1 as [|env chat_id ev w Hw IH]; [cbn; lia|].
  revert IH. unfold profiles_of.
  dispatch_run env chat_id ev w H; cases_of H; rewrite Hdb;
    unfold set_users, set_chat_history, set_image_analysis,
      set_document_analysis; cbn [users]; try done.
  - destruct (registration_data_lookup chat_id user) as [Hc _].
    destruct (decide (c = chat_id)) as [->|Hne].
    + rewrite upsert_filter by done. by destruct (filter _ _).
    + rewrite upsert_filter_other by (done || congruence). done.
  - destruct (contact_data_lookup chat_id contact "") as [Hc _].
    destruct (decide (c = chat_id)) as [->|Hne].
    + rewrite upsert_filter by done. by destruct (filter _ _).
    + rewrite upsert_filter_other by (done || congruence). done.
Qed.


Lemma save_user_world (user_data : dict) (w : World) :
  snd (save_user user_data w)
  = match user_data !! "chat_id" with
    | Some c =>
        set_db (set_users (update_one_set_upsert "chat_id" c user_data)) w
    | None => w
    end.
Proof. unfold save_user. by destruct (user_data !! "chat_id"). Qed.

(** C7. Starting from a store with at most one profile for the chat, two
    /start commands leave exactly one profile for it, with the name and
    the handle of the second command.  The upsert is idempotent (saving
    the same data a second time changes nothing) and creates no
    duplicate: after it the chat has one profile if it had none, and as
    many as before otherwise. *)
Theorem start_twice_one_profile (env : Env) (chat_id : Z)
    (user1 user2 : User) (args1 args2 : list string) (w : World) :
  let w1 := snd (dispatch env chat_id (Command "start" args1 user1) w) in
  let w2 := snd (dispatch env chat_id (Command "start" args2 user2) w1) in
  (length (profiles_of chat_id w) <= 1)%nat ->
  (exists d,
      profiles_of chat_id w2 = [d] /\
      d !! "chat_id" = Some (VInt chat_id) /\
      d !! "first_name" = Some (VStr (first_name user2)) /\
      d !! "username" = Some (opt_str (username user2))) /\
  (forall (user_data : dict) (w0 : World),
      snd (save_user user_data (snd (save_user user_data w0)))
      = snd (save_user user_data w0)) /\
  (forall (user_data : dict) (c : Z) (w0 : World),
      user_data !! "chat_id" = Some (VInt c) ->
      length (profiles_of c (snd (save_user user_data w0)))
      = Nat.max 1 (length (profiles_of c w0))).
Proof.
  cbn [dispatch]. rewrite bool_decide_true by done. cbn zeta. intros Hone.
  split; [|split].
  - destruct (registration_data_lookup chat_id user1) as (Hc1 & _).
    destruct (registration_data_lookup chat_id user2) as (Hc2 & Hn2 & Hu2).
    destruct (runs_to_obs _ _ _ _ _ _ _ _ (start_run chat_id user1 w))
      as (_ & Hdb1 & _).
    destruct (runs_to_obs _ _ _ _ _ _ _ _
                (start_run chat_id user2 (snd (start chat_id user1 w))))
      as (_ & Hdb2 & _).
    unfold profiles_of in *. rewrite Hdb2, Hdb1. cbn [users set_users].
    rewrite !upsert_filter by done.
    destruct (filter _ (users (db w))) as [|d [|d' rest]];
      [| |simpl in Hone; lia].
    + eexists. split; [reflexivity|].
      repeat split; by apply lookup_union_Some_l.
    + eexists. split; [reflexivity|].
      repeat split; by apply lookup_union_Some_l.
  - intros user_data w0. rewrite !save_user_world.
    destruct (user_data !! "chat_id") as [c|] eqn:Hc; [|done].
    destruct w0 as [[us ch im dc] ? ? ? ? ?].
    unfold set_db, set_users.
    cbn [db users chat_history image_analysis document_analysis outbox
         chat_actions log inference_log extraction_log].
    by rewrite upsert_idempotent.
  - intros user_data c w0 Hc. rewrite save_user_world, Hc.
    unfold profiles_of, set_db, set_users. cbn [db users].
    rewrite upsert_filter by done.
    by destruct (filter _ (users (db w0))).
Qed.

Lemma start_twice_one_profile_witness :
  let w1 := snd (dispatch (sample_env None []) 123 (Command "start" [] ann)
                  empty_world) in
  let w2 := snd (dispatch (sample_env None []) 123 (Command "start" [] anna)
                  w1) in
  exists d,
    profiles_of 123 w2 = [d] /\
    d !! "first_name" = Some (VStr "Anna") /\
    d !! "username" = Some VNull.
Proof.
  cbn zeta.
  destruct (start_twice_one_profile (sample_env None []) 123 ann anna [] []
              empty_world) as ((d & Hd & _ & Hname & Huser) & _).
  - vm_compute. lia.
  - exists d. repeat split; assumption.
Defined.

(** C10. A contact share writes only [chat_id] and [phone_number]: every
    profile stored before it is still at its place after it, with every
    other field -- [first_name] and [username] among them -- as it was,
    and with the chat id it had.  The other collections are untouched. *)
Theorem contact_share_keeps_other_fields (env : Env) (chat_id : Z)
    (contact : Contact) (w : World) (i : nat) (d : dict) :
  let w' := snd (dispatch env chat_id (ContactShare contact) w) in
  users (db w) !! i = Some d ->
  (exists d',
      users (db w') !! i = Some d' /\
      d' !! "first_name" = d !! "first_name" /\
      d' !! "username" = d !! "username" /\
      d' !! "chat_id" = d !! "chat_id" /\
      (forall k, k <> "chat_id" -> k <> "phone_number" -> d' !! k = d !! k)) /\
  chat_history (db w') = chat_history (db w) /\
  image_analysis (db w') = image_analysis (db w) /\
  document_analysis (db w') = document_analysis (db w).
Proof.
  cbn [dispatch]. cbn zeta. intros Hi.
  destruct (runs_to_obs _ _ _ _ _ _ _ _ (handle_contact_run chat_id contact w))
    as (_ & Hdb & _).
  rewrite Hdb. cbn [users chat_history image_analysis
                               document_analysis set_users].
  split; [|done].
  assert (forall k, k <> "chat_id" -> k <> "phone_number" ->
            contact_data chat_id contact !! k = None) as Hother
    by (intros k; apply contact_data_lookup).
  destruct (contact_data_lookup chat_id contact "") as [Hc _].
  edestruct (upsert_lookup "chat_id" (VInt chat_id)
               (contact_data chat_id contact) (users (db w)) i d Hi)
    as (d' & Hd' & Hcase).
  exists d'. split; [exact Hd'|].
  destruct Hcase as [->|[Hd ->]]; [done|].
  assert (forall k, k <> "chat_id" -> k <> "phone_number" ->
            (contact_data chat_id contact ∪ d) !! k = d !! k) as Hkeep.
  { intros k ? ?. apply lookup_union_r. by apply Hother. }
  repeat split; try (by apply Hkeep).
  rewrite Hd. by apply lookup_union_Some_l.
Qed.

Lemma contact_share_keeps_other_fields_witness :
  let w1 := snd (dispatch (sample_env None []) 123 (Command "start" [] ann)
                  empty_world) in
  let w2 := snd (dispatch (sample_env None []) 123
                  (ContactShare {| phone_number := "+15550100" |}) w1) in
  exists d',
    users (db w2) !! 0%nat = Some d' /\
    d' !! "first_name" = Some (VStr "Ann") /\
    d' !! "username" = Some (VStr "ann_k").
Proof.
  cbn zeta.
  destruct (contact_share_keeps_other_fields (sample_env None []) 123
              {| phone_number := "+15550100" |}
              (snd (dispatch (sample_env None []) 123 (Command "start" [] ann)
                      empty_world))
              0%nat (registration_data 123 ann))
    as ((d' & Hd' & Hname & Huser & _) & _).
  - vm_compute. reflexivity.
  - exists d'. split; [exact Hd'|]. rewrite Hname, Huser.
    split; vm_compute; reflexivity.
Defined.

(* --------------------------------------------------------------------- *)
(* Further properties: extract_text_from_pdf                              *)
(* --------------------------------------------------------------------- *)

Lemma scan_ok_iff (pages : list Page) (acc : string) :
  fst (scan_pages pages acc) = Ok tt <-> Forall page_returns pages.
Proof.
  revert acc. induction pages as [|p rest IH]; intros acc; cbn [scan_pages].
  - split; [constructor|done].
  - destruct (extract_text p) as [o|e] eqn:Hp.
    + rewrite IH. split.
      * intros Hrest. constructor; [by exists o|done].
      * by inversion 1.
    + cbn [fst]. split; [done|]. inversion 1 as [|? ? [o Ho] _]; congruence.
Qed.

Lemma scan_takes_prefix (pages : list Page) (acc : string) :
  exists k, snd (scan_pages pages acc) = acc +:+ concat_texts (take k pages).
Proof.
  revert acc. induction pages as [|p rest IH]; intros acc; cbn [scan_pages].
  - exists 0%nat. by rewrite str_app_nil_r.
  - destruct (extract_text p) as [o|e] eqn:Hp.
    + destruct (IH (acc +:+ Py.or_empty o)) as [k Hk]. exists (S k).
      rewrite Hk. cbn [take concat_texts foldr]. fold (concat_texts (take k rest)).
      unfold page_text. by rewrite Hp, str_app_assoc.
    + exists 0%nat. by rewrite str_app_nil_r.
Qed.

(** The run of [extract_text_from_pdf], with the error it logs. *)
Lemma extract_text_from_pdf_logs (env : Env) (pdf_bytes : bytes) (w : World) :
  runs_to (extract_text_from_pdf env pdf_bytes) w
    (Ok (extracted_text env pdf_bytes)) (db w) []
    (extraction_errors env pdf_bytes) [] [pdf_bytes].
Proof.
  unfold runs_to, extract_text_from_pdf, extracted_text, extraction_errors,
    read_pages.
  unfold bind at 1, modify at 1. unfold with_local.
  unfold bind at 1, try_except at 1. unfold bind at 1, call at 1.
  destruct (PdfReader env pdf_bytes) as [pages|e].
  - rewrite for_each_scan.
    destruct (scan_pages pages "") as [[[]|e] acc]; unfold lift, get_local;
      run; observe.
  - unfold lift, get_local. run. observe.
Qed.

(** X1. When the reader opens the file and every page returns, the text
    extracted is the texts of all the pages joined in page order, a page
    that returns [None] counting as empty, and no error is logged. *)
Theorem extract_joins_all_pages (env : Env) (pdf_bytes : bytes) (w : World)
    (pages : list Page) :
  PdfReader env pdf_bytes = Ok pages ->
  Forall page_returns pages ->
  fst (extract_text_from_pdf env pdf_bytes w) = Ok (concat_texts pages) /\
  logged_errors (snd (extract_text_from_pdf env pdf_bytes w))
    = logged_errors w.
Proof.
  intros Hread Hall.
  destruct (runs_to_obs _ _ _ _ _ _ _ _
              (extract_text_from_pdf_logs env pdf_bytes w))
    as (-> & _ & _ & -> & _).
  unfold extracted_text, extraction_errors. rewrite Hread.
  rewrite (scan_all_return pages "" Hall). cbn [fst snd].
  by rewrite str_app_nil_l, app_nil_r.
Qed.

Lemma extract_joins_all_pages_witness :
  fst (extract_text_from_pdf (sample_env None blank_middle_pages) []
         empty_world) = Ok "abcd".
Proof.
  destruct (extract_joins_all_pages (sample_env None blank_middle_pages) []
              empty_world blank_middle_pages) as [H _].
  - reflexivity.
  - repeat constructor; by eexists.
  - exact H.
Defined.

(** X2. Whatever the pages do, the text extracted is a prefix of the
    texts of all the pages joined in page order: extraction may stop
    early, but it never reorders, repeats or invents text. *)
Theorem extract_is_prefix_of_all_pages (env : Env) (pdf_bytes : bytes)
    (w : World) (pages : list Page) :
  PdfReader env pdf_bytes = Ok pages ->
  exists s,
    fst (extract_text_from_pdf env pdf_bytes w) = Ok s /\
    is_prefix s (concat_texts pages).
Proof.
  intros Hread.
  destruct (runs_to_obs _ _ _ _ _ _ _ _
              (extract_text_from_pdf_logs env pdf_bytes w)) as (-> & _).
  eexists. split; [reflexivity|].
  unfold extracted_text. rewrite Hread.
  destruct (scan_takes_prefix pages "") as [k ->]. rewrite str_app_nil_l.
  exists (concat_texts (drop k pages)).
  by rewrite <- concat_texts_app, take_drop.
Qed.

Lemma extract_is_prefix_of_all_pages_witness :
  exists s,
    fst (extract_text_from_pdf (sample_env None three_pages) [] empty_world)
      = Ok s /\
    is_prefix s "abcd".
Proof.
  apply (extract_is_prefix_of_all_pages (sample_env None three_pages) []
           empty_world three_pages).
  reflexivity.
Defined.

(** X3. [extract_text_from_pdf] logs an error exactly when something went
    wrong: none when the reader opens the file and every page returns,
    and otherwise one, the error of the reader or of the first page that
    raises.  It sends nothing, calls no model and leaves the store as it
    was. *)
Theorem extract_logs_error_iff (env : Env) (pdf_bytes : bytes) (w : World) :
  let w' := snd (extract_text_from_pdf env pdf_bytes w) in
  (reads_cleanly env pdf_bytes -> logged_errors w' = logged_errors w) /\
  (~ reads_cleanly env pdf_bytes ->
   exists e, logged_errors w' = logged_errors w ++ [extraction_error_entry e])
  /\ db w' = db w /\ new_replies w w' = [] /\ new_inferences w w' = [].
Proof.
  cbn zeta.
  destruct (runs_to_obs _ _ _ _ _ _ _ _
              (extract_text_from_pdf_logs env pdf_bytes w))
    as (_ & Hdb & Hrep & Herr & Hinf & _).
  rewrite Herr, Hdb, Hrep, Hinf. unfold extraction_errors, reads_cleanly.
  split; [|split; [|done]].
  - intros (pages & -> & Hall).
    apply (scan_ok_iff pages "") in Hall. rewrite Hall. by rewrite app_nil_r.
  - intros Hnot. destruct (PdfReader env pdf_bytes) as [pages|e]; [|by eexists].
    destruct (fst (scan_pages pages "")) as [[]|e] eqn:Hscan; [|by eexists].
    exfalso. apply Hnot. exists pages. split; [done|].
    by apply (scan_ok_iff pages "").
Qed.

Lemma extract_logs_error_iff_witness :
  logged_errors
    (snd (extract_text_from_pdf (sample_env None blank_middle_pages) []
            empty_world)) = [] /\
  exists e,
    logged_errors
      (snd (extract_text_from_pdf (sample_env None three_pages) []
              empty_world)) = [extraction_error_entry e].
Proof.
  split.
  - destruct (extract_logs_error_iff (sample_env None blank_middle_pages) []
                empty_world) as (Hclean & _).
    apply Hclean. exists blank_middle_pages. split; [reflexivity|].
    repeat constructor; by eexists.
  - destruct (extract_logs_error_iff (sample_env None three_pages) []
                empty_world) as (_ & Hdirty & _).
    apply Hdirty. intros (pages & [= <-] & Hall).
    inversion Hall as [|? ? _ Hrest]; subst.
    inversion Hrest as [|? ? [o Ho] _]; subst. discriminate.
Defined.

(* --------------------------------------------------------------------- *)
(* Further properties: handle_photo and handle_document                   *)
(* --------------------------------------------------------------------- *)

(** X4. Of the sizes of a photo only the last one is used: the handler
    does on a list of sizes what it does on its last item alone. *)
Theorem handle_photo_uses_last_size (env : Env) (chat_id : Z)
    (photos : list PhotoSize.t) (photo : PhotoSize.t) (w : World) :
  handle_photo env chat_id (photos ++ [photo]) w
  = handle_photo env chat_id [photo] w.
Proof.
  unfold handle_photo, last_item, bind at 1 7.
  by rewrite last_snoc.
Qed.

(** X5. When the vision model raises, [handle_photo] catches the
    exception: the model was called once, with the bytes downloaded,
    nothing is written to the store, the exception is logged and the
    apology is handed to the transport. *)
Theorem photo_model_failure_is_caught (env : Env) (chat_id : Z)
    (photos : list PhotoSize.t) (photo : PhotoSize.t) (file : File)
    (image_bytes : bytes) (e : exn) (w : World) :
  last photos = Some photo ->
  get_file env (PhotoSize.file_id photo) = Ok file ->
  download_as_bytearray file = Ok image_bytes ->
  vision_model_generate_content env image_bytes = Raise e ->
  let w' := snd (dispatch env chat_id (PhotoMessage photos) w) in
  new_inferences w w' = [(VisionCall image_bytes, Raise e)] /\
  db w' = db w /\
  new_replies w w' = [photo_apology chat_id] /\
  logged_errors w' = logged_errors w ++ [image_error_entry e].
Proof.
  intros Hlast Hfile Hdl Hmodel. cbn [dispatch]. cbn zeta.
  pose proof (handle_photo_run env chat_id photos w) as H.
  cbn zeta in H. rewrite Hlast, Hfile, Hdl, Hmodel in H. cases_of H. done.
Qed.

Lemma photo_model_failure_is_caught_witness :
  new_replies empty_world
    (snd (dispatch model_down_env 123
            (PhotoMessage [ {| PhotoSize.file_id := "photo-9" |} ])
            empty_world))
  = [photo_apology 123].
Proof.
  eapply (photo_model_failure_is_caught model_down_env 123
            [ {| PhotoSize.file_id := "photo-9" |} ]
            {| PhotoSize.file_id := "photo-9" |} sample_file []
            "ServiceUnavailable" empty_world); reflexivity.
Defined.

(** X6. When downloading the photo raises, the vision model is not
    called: the handler replies with its apology and writes nothing. *)
Theorem photo_download_failure_skips_model (env : Env) (chat_id : Z)
    (photos : list PhotoSize.t) (photo : PhotoSize.t) (file : File)
    (e : exn) (w : World) :
  last photos = Some photo ->
  get_file env (PhotoSize.file_id photo) = Ok file ->
  download_as_bytearray file = Raise e ->
  let w' := snd (dispatch env chat_id (PhotoMessage photos) w) in
  new_inferences w w' = [] /\
  db w' = db w /\
  new_replies w w' = [photo_apology chat_id] /\
  logged_errors w' = logged_errors w ++ [image_error_entry e].
Proof.
  intros Hlast Hfile Hdl. cbn [dispatch]. cbn zeta.
  pose proof (handle_photo_run env chat_id photos w) as H.
  cbn zeta in H. rewrite Hlast, Hfile, Hdl in H. cases_of H. done.
Qed.

Lemma photo_download_failure_skips_model_witness :
  let env :=
    {| get_file := fun _ =>
         Ok {| file_path := "photos/file_3.jpg";
               download_as_bytearray := Raise "TimedOut" |};
       model_generate_content := fun _ => Ok None;
       vision_model_generate_content := fun _ => Ok None;
       PdfReader := fun _ => Ok [];
       utcnow := 1700000000 |} in
  new_inferences empty_world
    (snd (dispatch env 123
            (PhotoMessage [ {| PhotoSize.file_id := "photo-9" |} ])
            empty_world)) = [].
Proof.
  cbn zeta.
  eapply (photo_download_failure_skips_model _ 123
            [ {| PhotoSize.file_id := "photo-9" |} ]
            {| PhotoSize.file_id := "photo-9" |}
            {| file_path := "photos/file_3.jpg";
               download_as_bytearray := Raise "TimedOut" |}
            "TimedOut" empty_world); reflexivity.
Defined.

Lemma str_length_app (s t : string) :
  String.length (s +:+ t) = (String.length s + String.length t)%nat.
Proof.
  induction s as [|c s IH]; [done|]. rewrite str_app_cons. simpl. by rewrite IH.
Qed.

Lemma slice_from_app (s t : string) :
  Py.slice_from (String.length s) (s +:+ t) = t.
Proof. induction s as [|c s IH]; [by destruct t|]. exact IH. Qed.

Lemma endswith_app (s suffix : string) : Py.endswith (s +:+ suffix) suffix = true.
Proof.
  unfold Py.endswith, Py.len. rewrite str_length_app.
  rewrite (proj2 (Nat.leb_le _ _)) by lia.
  replace (String.length s + String.length suffix - String.length suffix)%nat
    with (String.length s) by lia.
  rewrite slice_from_app. by apply bool_decide_eq_true.
Qed.

Lemma lower_app (s t : string) :
  Py.lower (s +:+ t) = Py.lower s +:+ Py.lower t.
Proof.
  induction s as [|c s IH]; [done|].
  rewrite str_app_cons. simpl. by rewrite IH, str_app_cons.
Qed.

(** X7. The extension is matched whatever its letter case: a document
    whose name ends in an extension that lower-cases to [.pdf] is, once
    resolved and downloaded, handed to the extractor exactly once, with
    the bytes downloaded, and gets one record and one reply. *)
Theorem pdf_extension_any_case (env : Env) (chat_id : Z) (file_id : string)
    (name ext : string) (file : File) (file_bytes : bytes) (w : World) :
  Py.lower ext = ".pdf" ->
  get_file env file_id = Ok file ->
  download_as_bytearray file = Ok file_bytes ->
  let document :=
    {| Document.file_id := file_id; Document.file_name := name +:+ ext |} in
  let w' := snd (dispatch env chat_id (DocumentMessage document) w) in
  ~ unsupported document /\
  new_extractions w w' = [file_bytes] /\
  (fst (dispatch env chat_id (DocumentMessage document) w) = Ok tt ->
   exists rec r,
     appends_record (DocumentMessage document) (db w) (db w') rec /\
     new_replies w w' = [r]).
Proof.
  intros Hlow Hfile Hdl. cbn zeta. cbn [dispatch].
  assert (Py.endswith (Py.lower (name +:+ ext)) ".pdf" = true) as Hpdf
    by (by rewrite lower_app, Hlow, endswith_app).
  split; [unfold unsupported; cbn [Document.file_name]; congruence|].
  pose proof (handle_document_run env chat_id
                {| Document.file_id := file_id;
                   Document.file_name := name +:+ ext |} w) as H.
  cbn zeta in H. cbn [Document.file_id Document.file_name] in H.
  rewrite Hfile, Hpdf, Hdl in H. cases_of H;
    rewrite Hres, Hdb, Hrep, Hext; (split; [done|]); intros Hok; try done;
    eexists _, _; by repeat split.
Qed.

Lemma pdf_extension_any_case_witness :
  new_extractions empty_world
    (snd (dispatch (sample_env None blank_middle_pages) 123
            (DocumentMessage
               {| Document.file_id := "doc-2";
                  Document.file_name := "Report" +:+ ".PdF" |})
            empty_world)) = [[]].
Proof.
  eapply (pdf_extension_any_case (sample_env None blank_middle_pages) 123
            "doc-2" "Report" ".PdF" sample_file [] empty_world);
    reflexivity.
Defined.

Lemma concat_texts_no_text (pages : list Page) :
  Forall page_no_text pages -> concat_texts pages = "".
Proof.
  induction 1 as [|p rest (o & Ho & Hempty) _ IH]; [done|].
  cbn [concat_texts foldr]. fold (concat_texts rest).
  unfold page_text. by rewrite Ho, Hempty, IH.
Qed.

Lemma extracted_text_none (env : Env) (pdf_bytes : bytes) :
  (exists e, PdfReader env pdf_bytes = Raise e) \/
  (exists pages,
      PdfReader env pdf_bytes = Ok pages /\ Forall page_no_text pages) ->
  extracted_text env pdf_bytes = "".
Proof.
  unfold extracted_text. intros [[e ->]|(pages & -> & Hall)]; [done|].
  rewrite scan_all_return
    by (eapply Forall_impl; [exact Hall|apply page_no_text_returns]).
  cbn [snd]. by rewrite str_app_nil_l, concat_texts_no_text.
Qed.

(** X8. A PDF that the reader cannot open, or whose pages all return no
    text, is answered with "No readable text found in the PDF.": one
    record with that description, one reply, and no call of a model. *)
Theorem pdf_without_readable_text (env : Env) (chat_id : Z)
    (document : Document.t) (file : File) (file_bytes : bytes) (w : World) :
  ~ unsupported document ->
  get_file env (Document.file_id document) = Ok file ->
  download_as_bytearray file = Ok file_bytes ->
  (exists e, PdfReader env file_bytes = Raise e) \/
  (exists pages,
      PdfReader env file_bytes = Ok pages /\ Forall page_no_text pages) ->
  let ev := DocumentMessage document in
  let w' := snd (dispatch env chat_id ev w) in
  fst (dispatch env chat_id ev w) = Ok tt /\
  new_inferences w w' = [] /\
  new_replies w w'
    = [text_reply chat_id "No readable text found in the PDF."] /\
  exists rec,
    appends_record ev (db w) (db w') rec /\
    rec !! "description"
      = Some (VStr "No readable text found in the PDF.").
Proof.
  intros Hpdf Hfile Hdl Hnone. cbn zeta. cbn [dispatch].
  apply extracted_text_none in Hnone.
  unfold unsupported in Hpdf. apply not_false_is_true in Hpdf.
  pose proof (handle_document_run env chat_id document w) as H.
  cbn zeta in H. rewrite Hfile, Hpdf, Hdl, Hnone in H. cbn [Py.truthy] in H.
  cases_of H. rewrite Hres, Hdb, Hrep, Hinf.
  repeat split. eexists. split; [by repeat split|]. record_field.
Qed.

Lemma pdf_without_readable_text_witness :
  new_replies empty_world
    (snd (dispatch (sample_env None [ {| extract_text := Ok None |} ]) 123
            (DocumentMessage report_pdf) empty_world))
  = [text_reply 123 "No readable text found in the PDF."].
Proof.
  eapply (pdf_without_readable_text
            (sample_env None [ {| extract_text := Ok None |} ]) 123
            report_pdf sample_file [] empty_world).
  - unfold unsupported. vm_compute. discriminate.
  - reflexivity.
  - reflexivity.
  - right. eexists. split; [reflexivity|].
    repeat constructor. exists None. by split.
Defined.

(** X9. When downloading a PDF raises, the exception leaves
    [handle_document]: nothing is replied, nothing is recorded, and
    neither the extractor nor a model is called. *)
Theorem pdf_download_failure_escapes (env : Env) (chat_id : Z)
    (document : Document.t) (file : File) (e : exn) (w : World) :
  ~ unsupported document ->
  get_file env (Document.file_id document) = Ok file ->
  download_as_bytearray file = Raise e ->
  let ev := DocumentMessage document in
  let w' := snd (dispatch env chat_id ev w) in
  fst (dispatch env chat_id ev w) = Raise e /\
  db w' = db w /\
  new_replies w w' = [] /\
  new_inferences w w' = [] /\
  new_extractions w w' = [].
Proof.
  intros Hpdf Hfile Hdl. cbn zeta. cbn [dispatch].
  unfold unsupported in Hpdf. apply not_false_is_true in Hpdf.
  pose proof (handle_document_run env chat_id document w) as H.
  cbn zeta in H. rewrite Hfile, Hpdf, Hdl in H. cases_of H. done.
Qed.

Lemma pdf_download_failure_escapes_witness :
  let env :=
    {| get_file := fun _ =>
         Ok {| file_path := "documents/file_7.pdf";
               download_as_bytearray := Raise "TimedOut" |};
       model_generate_content := fun _ => Ok None;
       vision_model_generate_content := fun _ => Ok None;
       PdfReader := fun _ => Ok [];
       utcnow := 1700000000 |} in
  fst (dispatch env 123 (DocumentMessage report_pdf) empty_world)
  = Raise "TimedOut".
Proof.
  cbn zeta.
  eapply (pdf_download_failure_escapes _ 123 report_pdf
            {| file_path := "documents/file_7.pdf";
               download_as_bytearray := Raise "TimedOut" |}
            "TimedOut" empty_world).
  - unfold unsupported. vm_compute. discriminate.
  - reflexivity.
  - reflexivity.
Defined.

(** X10. The summary of a PDF, end to end: when the file is resolved and
    downloaded, every page returns and their joined text is not empty,
    the text model is called once with exactly that text as its prompt;
    when it answers, the record holds the whole answer and the reply its
    first 4096 characters. *)
Theorem pdf_summary_pipeline (env : Env) (chat_id : Z)
    (document : Document.t) (file : File) (file_bytes : bytes)
    (pages : list Page) (resp : Response) (w : World) :
  ~ unsupported document ->
  get_file env (Document.file_id document) = Ok file ->
  download_as_bytearray file = Ok file_bytes ->
  PdfReader env file_bytes = Ok pages ->
  Forall page_returns pages ->
  concat_texts pages <> "" ->
  model_generate_content env (concat_texts pages) = Ok (Some resp) ->
  let ev := DocumentMessage document in
  let w' := snd (dispatch env chat_id ev w) in
  new_extractions w w' = [file_bytes] /\
  new_inferences w w' = [(TextCall (concat_texts pages), Ok (Some resp))] /\
  new_replies w w'
    = [text_reply chat_id (Py.slice_to max_reply_length (text resp))] /\
  exists rec,
    appends_record ev (db w) (db w') rec /\
    rec !! "description" = Some (VStr (text resp)) /\
    rec !! "document_url" = Some (VStr (file_path file)).
Proof.
  intros Hpdf Hfile Hdl Hread Hall Hne Hmodel. cbn zeta. cbn [dispatch].
  unfold unsupported in Hpdf. apply not_false_is_true in Hpdf.
  assert (extracted_text env file_bytes = concat_texts pages) as Htext.
  { unfold extracted_text. rewrite Hread, (scan_all_return pages "" Hall).
    cbn [snd]. by rewrite str_app_nil_l. }
  pose proof (handle_document_run env chat_id document w) as H.
  cbn zeta in H. rewrite Hfile, Hpdf, Hdl, Htext, Hmodel in H.
  destruct (Py.truthy (concat_texts pages)) eqn:Htruthy;
    [|by apply truthy_false in Htruthy].
  cases_of H. rewrite Hdb, Hrep, Hinf, Hext. cbn [text_or].
  repeat split. eexists. split; [by repeat split|].
  split; [record_field|].
  unfold document_record, mk_dict. cbn [foldl fst snd]. by simplify_map_eq.
Qed.

Lemma pdf_summary_pipeline_witness :
  new_inferences empty_world
    (snd (dispatch
            (sample_env (Some {| text := "A summary." |}) blank_middle_pages)
            123 (DocumentMessage report_pdf) empty_world))
  = [(TextCall "abcd", Ok (Some {| text := "A summary." |}))].
Proof.
  eapply (pdf_summary_pipeline
            (sample_env (Some {| text := "A summary." |}) blank_middle_pages)
            123 report_pdf sample_file [] blank_middle_pages
            {| text := "A summary." |} empty_world).
  - unfold unsupported. vm_compute. discriminate.
  - reflexivity.
  - reflexivity.
  - reflexivity.
  - repeat constructor; by eexists.
  - vm_compute. discriminate.
  - reflexivity.
Defined.

(* --------------------------------------------------------------------- *)
(* Further properties: every handler                                      *)
(* --------------------------------------------------------------------- *)

Lemma slice_to_length_min (n : nat) (s : string) :
  String.length (Py.slice_to n s) = Nat.min n (String.length s).
Proof.
  revert s. induction n as [|n IH]; intros [|c s]; try done.
  change (S (String.length (Py.slice_to n s))
          = S (Nat.min n (String.length s))).
  by rewrite IH.
Qed.


(** X12. Whatever the event, its handler calls a model at most once and
    the extractor at most once.  A photo reaches only the vision model,
    every other event only the text model; /start, a contact share and
    an unknown command reach neither. *)
Theorem at_most_one_model_call (env : Env) (chat_id : Z) (ev : Event)
    (w : World) :
  let w' := snd (dispatch env chat_id ev w) in
  (length (new_inferences w w') <= 1)%nat /\
  (length (new_extractions w w') <= 1)%nat /\
  match ev with
  | PhotoMessage _ =>
      Forall (fun c => exists image r, c = (VisionCall image, r))
        (new_inferences w w')
  | TextMessage _ | DocumentMessage _ =>
      Forall (fun c => exists prompt r, c = (TextCall prompt, r))
        (new_inferences w w')
  | Command name _ _ =>
      if bool_decide (name = "websearch")
      then Forall (fun c => exists prompt r, c = (TextCall prompt, r))
             (new_inferences w w')
      else new_inferences w w' = []
  | ContactShare _ => new_inferences w w' = []
  end.
Proof.
  destruct ev as [name args user|contact|message|photos|document];
    cbn [dispatch].
  - destruct (bool_decide (name = "start")) eqn:Hstart.
    + apply bool_decide_eq_true in Hstart as ->.
      rewrite bool_decide_false by done.
      pose proof (start_run chat_id user w) as H. cases_of H. cbn zeta.
      rewrite Hinf, Hext. repeat split; simpl; (lia || done).
    + destruct (bool_decide (name = "websearch")).
      * pose proof (web_search_run env chat_id args w) as H.
        cases_of H; cbn zeta; rewrite Hinf, Hext;
          (split; [simpl; lia|split; [simpl; lia|]]);
          repeat constructor; by eexists _, _.
      * pose proof (ret_run w) as H. cases_of H. cbn zeta.
        rewrite Hinf, Hext. repeat split; simpl; (lia || done).
  - pose proof (handle_contact_run chat_id contact w) as H. cases_of H.
    cbn zeta. rewrite Hinf, Hext. repeat split; simpl; (lia || done).
  - pose proof (handle_message_run env chat_id message w) as H.
    cases_of H; cbn zeta; rewrite Hinf, Hext;
      (split; [simpl; lia|split; [simpl; lia|]]);
      repeat constructor; by eexists _, _.
  - pose proof (handle_photo_run env chat_id photos w) as H.
    cases_of H; cbn zeta; rewrite Hinf, Hext;
      (split; [simpl; lia|split; [simpl; lia|]]);
      repeat constructor; by eexists _, _.
  - pose proof (handle_document_run env chat_id document w) as H.
    cases_of H; cbn zeta; rewrite Hinf, Hext;
      (split; [simpl; lia|split; [simpl; lia|]]);
      repeat constructor; by eexists _, _.
Qed.

(** X13. The three logs of the store are append-only: whatever the event
    and whatever the collaborators do, each of [chat_history],
    [image_analysis] and [document_analysis] keeps its records, in
    order, and at most one record is added over the three.  The profiles
    change only on /start and on a contact share. *)
Theorem logs_are_append_only (env : Env) (chat_id : Z) (ev : Event)
    (w : World) :
  let w' := snd (dispatch env chat_id ev w) in
  chat_history (db w) `prefix_of` chat_history (db w') /\
  image_analysis (db w) `prefix_of` image_analysis (db w') /\
  document_analysis (db w) `prefix_of` document_analysis (db w') /\
  (record_count (db w) <= record_count (db w') <= record_count (db w) + 1)%nat
  /\
  match ev with
  | Command name _ _ =>
      if bool_decide (name = "start") then True
      else users (db w') = users (db w)
  | ContactShare _ => True
  | _ => users (db w') = users (db w)
  end.
Proof.
  destruct ev as [name args user|contact|message|photos|document];
    cbn [dispatch].
  1: destruct (bool_decide (name = "start"));
       [pose proof (start_run chat_id user w) as H
       |destruct (bool_decide (name = "websearch"));
          [pose proof (web_search_run env chat_id args w) as H
          |pose proof (ret_run w) as H]].
  4: pose proof (handle_contact_run chat_id contact w) as H.
  5: pose proof (handle_message_run env chat_id message w) as H.
  6: pose proof (handle_photo_run env chat_id photos w) as H.
  7: pose proof (handle_document_run env chat_id document w) as H.
  all: cases_of H; cbn zeta; rewrite Hdb;
    unfold record_count, set_users, set_chat_history, set_image_analysis,
      set_document_analysis, insert_one;
    cbn [users chat_history image_analysis document_analysis];
    rewrite ?length_app; cbn [length];
    repeat split;
    first [done | lia | reflexivity | by apply prefix_app_r].
Qed.

(** X14. A model that raises leaves no record: whatever the event, when
    the call of a model raised, the store is as it was before the event.
    A photo is then answered with the apology; for every other event
    nothing is handed to the transport. *)
Theorem model_failure_writes_nothing (env : Env) (chat_id : Z) (ev : Event)
    (w : World) (c : InferenceCall) (e : exn) :
  let w' := snd (dispatch env chat_id ev w) in
  (c, Raise e) ∈ new_inferences w w' ->
  db w' = db w /\
  match ev with
  | PhotoMessage _ => new_replies w w' = [photo_apology chat_id]
  | _ => new_replies w w' = []
  end.
Proof.
  dispatch_run env chat_id ev w H; cases_of H; cbn zeta;
    rewrite Hdb, Hrep, Hinf; intros Hc.
  all: try (by apply elem_of_nil in Hc).
  all: apply list_elem_of_singleton in Hc; simplify_eq; done.
Qed.

Lemma model_failure_writes_nothing_witness :
  db (snd (dispatch model_down_env 123 (TextMessage "Hello") empty_world))
  = empty_db.
Proof.
  eapply (model_failure_writes_nothing model_down_env 123
            (TextMessage "Hello") empty_world (TextCall "Hello")
            "ServiceUnavailable").
  vm_compute. apply list_elem_of_singleton. reflexivity.
Defined.

(** X15. The reply to a model's answer has the length of the answer or
    4096, whichever is smaller; an answer of at most 4096 characters is
    sent whole. *)
Theorem short_answers_are_sent_whole (env : Env) (chat_id : Z) (ev : Event)
    (w : World) (c : InferenceCall) (resp : Response) :
  let w' := snd (dispatch env chat_id ev w) in
  (c, Ok (Some resp)) ∈ new_inferences w w' ->
  exists r,
    new_replies w w' = [r] /\
    String.length (body r) = Nat.min 4096 (String.length (text resp)) /\
    ((String.length (text resp) <= 4096)%nat -> body r = text resp).
Proof.
  change 4096%nat with max_reply_length.
  dispatch_run env chat_id ev w H; cases_of H; cbn zeta;
    rewrite ?Hrep, ?Hinf; intros Hc.
  all: try (by apply elem_of_nil in Hc).
  all: apply list_elem_of_singleton in Hc; simplify_eq; cbn [text_or].
  all: eexists; split; [reflexivity|]; cbn [body text_reply].
  all: split; [apply slice_to_length_min|apply slice_to_short].
Qed.

Lemma short_answers_are_sent_whole_witness :
  exists r,
    new_replies empty_world
      (snd (dispatch (sample_env (Some {| text := "Hi Ann" |}) []) 123
              (TextMessage "Hello") empty_world)) = [r] /\
    body r = "Hi Ann".
Proof.
  destruct (short_answers_are_sent_whole
              (sample_env (Some {| text := "Hi Ann" |}) []) 123
              (TextMessage "Hello") empty_world (TextCall "Hello")
              {| text := "Hi Ann" |}) as (r & Hr & _ & Hwhole).
  - vm_compute. apply list_elem_of_singleton. reflexivity.
  - exists r. split; [exact Hr|]. apply Hwhole. vm_compute. lia.
Defined.

(* --------------------------------------------------------------------- *)
(* Further properties: the profiles                                       *)
(* --------------------------------------------------------------------- *)

Lemma upsert_commute (key : string) (v : value) (a b : dict)
    (coll : list dict) :
  a !! key = Some v -> b !! key = Some v -> a ∪ b = b ∪ a ->
  update_one_set_upsert key v a (update_one_set_upsert key v b coll)
  = update_one_set_upsert key v b (update_one_set_upsert key v a coll).
Proof.
  intros Ha Hb Hab.
  assert (forall d : dict, a ∪ (b ∪ d) = b ∪ (a ∪ d)) as Hswap.
  { intros d. by rewrite !(assoc_L (∪)), Hab. }
  induction coll as [|d coll IH]; cbn [update_one_set_upsert].
  - rewrite !bool_decide_true by (by apply lookup_union_Some_l).
    by rewrite Hswap.
  - case_bool_decide as Hd; cbn [update_one_set_upsert].
    + rewrite !bool_decide_true by (by apply lookup_union_Some_l).
      by rewrite Hswap.
    + rewrite !bool_decide_false by done. by rewrite IH.
Qed.

Lemma registration_data_other (chat_id : Z) (user : User) (k : string) :
  k <> "chat_id" -> k <> "first_name" -> k <> "username" ->
  registration_data chat_id user !! k = None.
Proof.
  intros. unfold registration_data, mk_dict. cbn [foldl fst snd].
  by simplify_map_eq.
Qed.

Lemma registration_contact_agree (chat_id : Z) (user : User)
    (contact : Contact) :
  registration_data chat_id user ∪ contact_data chat_id contact
  = contact_data chat_id contact ∪ registration_data chat_id user.
Proof.
  apply map_eq. intros k. rewrite !lookup_union.
  destruct (decide (k = "chat_id")) as [->|Hk].
  - destruct (registration_data_lookup chat_id user) as [-> _].
    by destruct (contact_data_lookup chat_id contact "") as [-> _].
  - destruct (decide (k = "phone_number")) as [->|Hp].
    + rewrite registration_data_other by done.
      by destruct (contact_data chat_id contact !! "phone_number").
    + destruct (contact_data_lookup chat_id contact k) as [_ ->]; [|done..].
      by destruct (registration_data chat_id user !! k).
Qed.

(** X16. [save_user] and the lookup by chat id: when the data has a
    [chat_id], the call returns and the first profile stored for that
    chat then holds every field of the data.  When the data has no
    [chat_id] the call raises and the world is as it was. *)
Theorem save_user_then_lookup (user_data : dict) (w : World) :
  (forall c,
      user_data !! "chat_id" = Some (VInt c) ->
      fst (save_user user_data w) = Ok tt /\
      exists d rest,
        profiles_of c (snd (save_user user_data w)) = d :: rest /\
        forall k x, user_data !! k = Some x -> d !! k = Some x) /\
  (user_data !! "chat_id" = None ->
   exists e, save_user user_data w = (Raise e, w)).
Proof.
  split.
  - intros c Hc. split; [unfold save_user; by rewrite Hc|].
    rewrite save_user_world, Hc. unfold profiles_of, set_db, set_users.
    cbn [db users]. rewrite upsert_filter by done.
    destruct (filter _ (users (db w))) as [|d rest]; eexists _, _;
      (split; [reflexivity|]); intros k x Hk; by apply lookup_union_Some_l.
  - intros Hnone. unfold save_user. rewrite Hnone. by eexists.
Qed.

Lemma save_user_then_lookup_witness :
  exists d rest,
    profiles_of 123 (snd (save_user (registration_data 123 ann) empty_world))
      = d :: rest /\
    d !! "first_name" = Some (VStr "Ann").
Proof.
  destruct (save_user_then_lookup (registration_data 123 ann) empty_world)
    as [Hsome _].
  destruct (Hsome 123) as (_ & d & rest & Hd & Hfields);
    [vm_compute; reflexivity|].
  exists d, rest. split; [exact Hd|]. apply Hfields. vm_compute. reflexivity.
Defined.

(** X17. [save_user] touches one chat only: the profiles of every other
    chat are as they were, and so are the three logs. *)
Theorem save_user_other_chats (user_data : dict) (c c' : Z) (w : World) :
  user_data !! "chat_id" = Some (VInt c) ->
  c' <> c ->
  let w' := snd (save_user user_data w) in
  profiles_of c' w' = profiles_of c' w /\
  chat_history (db w') = chat_history (db w) /\
  image_analysis (db w') = image_analysis (db w) /\
  document_analysis (db w') = document_analysis (db w) /\
  outbox w' = outbox w.
Proof.
  intros Hc Hne. cbn zeta. rewrite save_user_world, Hc.
  unfold profiles_of, set_db, set_users.
  cbn [db users chat_history image_analysis document_analysis outbox].
  rewrite upsert_filter_other by (done || congruence). done.
Qed.

Lemma save_user_other_chats_witness :
  let w := snd (save_user (registration_data 123 ann) empty_world) in
  profiles_of 123 (snd (save_user (registration_data 456 anna) w))
  = profiles_of 123 w.
Proof.
  cbn zeta.
  eapply (save_user_other_chats (registration_data 456 anna) 456 123).
  - vm_compute. reflexivity.
  - lia.
Defined.

(** X18. Registration, then the contact: after /start and a contact share
    from the same chat, the first profile of the chat holds the name and
    the handle of the /start and the phone number of the contact. *)
Theorem registration_then_contact (env : Env) (chat_id : Z) (user : User)
    (args : list string) (contact : Contact) (w : World) :
  let w1 := snd (dispatch env chat_id (Command "start" args user) w) in
  let w2 := snd (dispatch env chat_id (ContactShare contact) w1) in
  exists d rest,
    profiles_of chat_id w2 = d :: rest /\
    d !! "chat_id" = Some (VInt chat_id) /\
    d !! "first_name" = Some (VStr (first_name user)) /\
    d !! "username" = Some (opt_str (username user)) /\
    d !! "phone_number" = Some (VStr (phone_number contact)).
Proof.
  cbn [dispatch]. rewrite bool_decide_true by done. cbn zeta.
  destruct (registration_data_lookup chat_id user) as (Hc1 & Hn & Hu).
  destruct (contact_data_lookup chat_id contact "first_name") as [Hc2 Hf];
    specialize (Hf ltac:(done) ltac:(done)).
  destruct (contact_data_lookup chat_id contact "username") as [_ Hg];
    specialize (Hg ltac:(done) ltac:(done)).
  assert (contact_data chat_id contact !! "phone_number"
          = Some (VStr (phone_number contact))) as Hp.
  { unfold contact_data, mk_dict. cbn [foldl fst snd]. by simplify_map_eq. }
  destruct (runs_to_obs _ _ _ _ _ _ _ _ (start_run chat_id user w))
    as (_ & Hdb1 & _).
  destruct (runs_to_obs _ _ _ _ _ _ _ _
              (handle_contact_run chat_id contact
                 (snd (start chat_id user w)))) as (_ & Hdb2 & _).
  unfold profiles_of. rewrite Hdb2, Hdb1. cbn [users set_users].
  rewrite !upsert_filter by done.
  assert (forall d0 : dict,
            (contact_data chat_id contact
               ∪ (registration_data chat_id user ∪ d0)) !! "first_name"
            = Some (VStr (first_name user)) /\
            (contact_data chat_id contact
               ∪ (registration_data chat_id user ∪ d0)) !! "username"
            = Some (opt_str (username user))) as Hkeep.
  { intros d0. split; (rewrite lookup_union_r by done);
      by apply lookup_union_Some_l. }
  destruct (filter _ (users (db w))) as [|d rest]; eexists _, _;
    (split; [reflexivity|]);
    (split; [by apply lookup_union_Some_l|]);
    (split; [apply Hkeep|]); (split; [apply Hkeep|]);
    by apply lookup_union_Some_l.
Qed.

(** X19. /start and a contact share from the same chat commute on the
    profiles: in either order they leave the same [users] collection. *)
Theorem registration_and_contact_commute (env : Env) (chat_id : Z)
    (user : User) (args : list string) (contact : Contact) (w : World) :
  let start_ev := Command "start" args user in
  let contact_ev := ContactShare contact in
  users (db (snd (dispatch env chat_id contact_ev
                    (snd (dispatch env chat_id start_ev w)))))
  = users (db (snd (dispatch env chat_id start_ev
                      (snd (dispatch env chat_id contact_ev w))))).
Proof.
  cbn [dispatch]. rewrite bool_decide_true by done. cbn zeta.
  destruct (runs_to_obs _ _ _ _ _ _ _ _ (start_run chat_id user w))
    as (_ & Hs1 & _).
  destruct (runs_to_obs _ _ _ _ _ _ _ _
              (handle_contact_run chat_id contact
                 (snd (start chat_id user w)))) as (_ & Hc2 & _).
  destruct (runs_to_obs _ _ _ _ _ _ _ _ (handle_contact_run chat_id contact w))
    as (_ & Hc1 & _).
  destruct (runs_to_obs _ _ _ _ _ _ _ _
              (start_run chat_id user
                 (snd (handle_contact chat_id contact w)))) as (_ & Hs2 & _).
  rewrite Hc2, Hs1, Hs2, Hc1. cbn [users set_users].
  apply upsert_commute.
  - apply contact_data_lookup. exact "".
  - apply registration_data_lookup.
  - symmetry. apply registration_contact_agree.
Qed.

(** X20. /start writes only [chat_id], [first_name] and [username]: every
    profile stored before it is still at its place after it with every
    other field, the phone number among them, as it was. *)
Theorem start_keeps_phone_number (env : Env) (chat_id : Z) (user : User)
    (args : list string) (w : World) (i : nat) (d : dict) :
  let w' := snd (dispatch env chat_id (Command "start" args user) w) in
  users (db w) !! i = Some d ->
  exists d',
    users (db w') !! i = Some d' /\
    d' !! "phone_number" = d !! "phone_number" /\
    (forall k, k <> "chat_id" -> k <> "first_name" -> k <> "username" ->
               d' !! k = d !! k).
Proof.
  cbn [dispatch]. rewrite bool_decide_true by done. cbn zeta. intros Hi.
  destruct (runs_to_obs _ _ _ _ _ _ _ _ (start_run chat_id user w))
    as (_ & Hdb & _).
  rewrite Hdb. cbn [users set_users].
  destruct (registration_data_lookup chat_id user) as [Hc _].
  edestruct (upsert_lookup "chat_id" (VInt chat_id)
               (registration_data chat_id user) (users (db w)) i d Hi)
    as (d' & Hd' & Hcase).
  exists d'. split; [exact Hd'|].
  destruct Hcase as [->|[Hd ->]]; [done|].
  assert (forall k, k <> "chat_id" -> k <> "first_name" -> k <> "username" ->
            (registration_data chat_id user ∪ d) !! k = d !! k) as Hkeep.
  { intros k ? ? ?. apply lookup_union_r.
    by apply registration_data_other. }
  split; [by apply Hkeep|exact Hkeep].
Qed.

Lemma start_keeps_phone_number_witness :
  let w1 := snd (dispatch (sample_env None []) 123
                  (ContactShare {| phone_number := "+15550100" |})
                  empty_world) in
  let w2 := snd (dispatch (sample_env None []) 123 (Command "start" [] ann)
                  w1) in
  exists d',
    users (db w2) !! 0%nat = Some d' /\
    d' !! "phone_number" = Some (VStr "+15550100").
Proof.
  cbn zeta.
  destruct (start_keeps_phone_number (sample_env None []) 123 ann []
              (snd (dispatch (sample_env None []) 123
                      (ContactShare {| phone_number := "+15550100" |})
                      empty_world))
              0%nat (contact_data 123 {| phone_number := "+15550100" |}))
    as (d' & Hd' & Hphone & _).
  - vm_compute. reflexivity.
  - exists d'. split; [exact Hd'|]. rewrite Hphone. vm_compute. reflexivity.
Defined.

(** X21. What registration hands to the transport and leaves in the
    store: /start asks for one reply, its prompt with the one-time
    keyboard whose single button requests the contact; a contact share
    asks for one reply, its thanks.  Neither logs an error, and after
    either the chat has a profile. *)
Theorem registration_replies (env : Env) (chat_id : Z) (user : User)
    (args : list string) (contact : Contact) (w : World) :
  let started := snd (dispatch env chat_id (Command "start" args user) w) in
  let shared := snd (dispatch env chat_id (ContactShare contact) w) in
  (new_replies w started = [contact_request chat_id] /\
   logged_errors started = logged_errors w /\
   profiles_of chat_id started <> []) /\
  (new_replies w shared
     = [text_reply chat_id "Thanks for sharing your contact!"] /\
   logged_errors shared = logged_errors w /\
   profiles_of chat_id shared <> []).
Proof.
  cbn [dispatch]. rewrite bool_decide_true by done. cbn zeta.
  destruct (runs_to_obs _ _ _ _ _ _ _ _ (start_run chat_id user w))
    as (_ & Hdb1 & -> & -> & _).
  destruct (runs_to_obs _ _ _ _ _ _ _ _ (handle_contact_run chat_id contact w))
    as (_ & Hdb2 & -> & -> & _).
  destruct (registration_data_lookup chat_id user) as [Hc1 _].
  destruct (contact_data_lookup chat_id contact "") as [Hc2 _].
  unfold profiles_of. rewrite Hdb1, Hdb2. cbn [users set_users].
  rewrite !upsert_filter, app_nil_r by done.
  repeat split; by destruct (filter _ (users (db w))).
Qed.

(* --------------------------------------------------------------------- *)
(* Further properties: over a whole run, and at start-up                  *)
(* --------------------------------------------------------------------- *)

Lemma reachable_at_most_one_profile_witness :
  let w1 := snd (dispatch (sample_env None []) 123 (Command "start" [] ann)
                  empty_world) in
  let w2 := snd (dispatch model_down_env 123 (TextMessage "Hello") w1) in
  let w3 := snd (dispatch (sample_env None []) 123 (Command "start" [] anna)
                  w2) in
  (length (profiles_of 123 w3) <= 1)%nat.
Proof.
  cbn zeta. apply reachable_at_most_one_profile.
  do 3 apply reachable_step. apply reachable_empty.
Defined.

Lemma runs_to_outbox {A} (m : M World A) (w : World) (r : Result A) (d : Db)
    replies errors inferences extractions :
  runs_to m w r d replies errors inferences extractions ->
  outbox (snd (m w)) = outbox w ++ replies.
Proof. by intros (w' & -> & _ & Hout & _). Qed.

(** X23. No reply the bot has ever handed to the transport exceeds 4096
    characters: in every world reached from an empty one, every message
    of the outbox is at most 4096 characters long. *)
Theorem reachable_replies_bounded (w : World) :
  reachable w ->
  Forall (fun r => (String.length (body r) <= 4096)%nat) (outbox w).
Proof.
  change 4096%nat with max_reply_length.
  induction 1 as [|env chat_id ev w Hw IH]; [constructor|].
  revert IH.
  destruct ev as [name args user|contact|message|photos|document];
    cbn [dispatch].
  1: destruct (bool_decide (name = "start"));
       [pose proof (start_run chat_id user w) as H
       |destruct (bool_decide (name = "websearch"));
          [pose proof (web_search_run env chat_id args w) as H
          |pose proof (ret_run w) as H]].
  4: pose proof (handle_contact_run chat_id contact w) as H.
  5: pose proof (handle_message_run env chat_id message w) as H.
  6: pose proof (handle_photo_run env chat_id photos w) as H.
  7: pose proof (handle_document_run env chat_id document w) as H.
  all: cbn zeta in H;
    repeat match type of H with
           | match ?x with _ => _ end => destruct x eqn:?
           | ex _ => destruct H as [? H]
           end;
    apply runs_to_outbox in H; rewrite H; intros IH;
    apply Forall_app; (split; [exact IH|]);
    first [ by apply Forall_nil
          | apply Forall_singleton; cbn [body text_reply];
            first [apply slice_to_length
                  | apply within_limit; vm_compute; reflexivity] ].
Qed.

Lemma reachable_replies_bounded_witness :
  Forall (fun r => (String.length (body r) <= 4096)%nat)
    (outbox
       (snd (dispatch (sample_env (Some {| text := long_answer |}) []) 123
               (TextMessage "Hello") empty_world))).
Proof.
  apply reachable_replies_bounded.
  apply reachable_step. apply reachable_empty.
Defined.


(** X25. The check of the environment at import lets the process go on
    exactly when the three variables are set to strings that are not
    empty, and then does nothing.  Otherwise -- a variable missing or
    empty -- it logs one error and exits with status 1. *)
Theorem validate_environment_spec (environ : gmap string string) (w : World) :
  (configured environ -> validate_environment environ w = (Ok tt, w)) /\
  (~ configured environ ->
   fst (validate_environment environ w) = Raise "SystemExit: 1" /\
   logged_errors (snd (validate_environment environ w))
     = logged_errors w ++ [missing_variables_entry] /\
   db (snd (validate_environment environ w)) = db w /\
   outbox (snd (validate_environment environ w)) = outbox w).
Proof.
  unfold validate_environment, configured, getenv. cbn zeta.
  assert (forall name,
            not_set (environ !! name) = false
            <-> exists s, environ !! name = Some s /\ s <> "") as Hset.
  { intros name. unfold not_set.
    destruct (environ !! name) as [[|c s]|]; cbn [Py.truthy negb];
      split; try done.
    - intros (s & [= <-] & Hs). done.
    - intros _. by eexists.
    - intros (s & [=] & _). }
  split.
  - intros Hok.
    assert (not_set (environ !! "TELEGRAM_TOKEN") = false) as ->
      by (apply Hset; apply Hok; set_unfold; tauto).
    assert (not_set (environ !! "MONGODB_URI") = false) as ->
      by (apply Hset; apply Hok; set_unfold; tauto).
    assert (not_set (environ !! "GEMINI_API_KEY") = false) as ->
      by (apply Hset; apply Hok; set_unfold; tauto).
    done.
  - intros Hnot.
    destruct (not_set (environ !! "TELEGRAM_TOKEN")) eqn:H1;
      [|destruct (not_set (environ !! "MONGODB_URI")) eqn:H2;
        [|destruct (not_set (environ !! "GEMINI_API_KEY")) eqn:H3]];
      cbn [orb].
    4: { exfalso. apply Hnot. intros name Hin.
         apply Hset. set_unfold in Hin.
         destruct Hin as [->|[->|[->|[]]]]; done. }
    all: run; run; unfold logged_errors; cbn [log];
      rewrite filter_app, filter_cons, filter_nil;
      rewrite decide_True by done; done.
Qed.

Lemma validate_environment_spec_witness :
  let complete : gmap string string :=
    <["TELEGRAM_TOKEN" := "123:abc"]>
      (<["MONGODB_URI" := "mongodb://localhost"]>
         (<["GEMINI_API_KEY" := "key"]> ∅)) in
  let empty_key : gmap string string := <["GEMINI_API_KEY" := ""]> complete in
  validate_environment complete empty_world = (Ok tt, empty_world) /\
  fst (validate_environment empty_key empty_world) = Raise "SystemExit: 1".
Proof.
  cbn zeta. split.
  - eapply validate_environment_spec.
    intros name Hin. set_unfold in Hin.
    destruct Hin as [->|[->|[->|[]]]]; eexists; (split; [vm_compute; reflexivity|done]).
  - eapply validate_environment_spec.
    intros Hok. destruct (Hok "GEMINI_API_KEY") as (s & Hs & Hne);
      [set_solver|]. vm_compute in Hs. by simplify_eq.
Defined.

(** X26. [__init__] swallows no failure: it returns exactly when the
    three constructors return, and then logs no error.  When it raises,
    it raises the exception of a constructor, having logged it once; a
    failure of the store comes first, before "Connected to MongoDB" is
    logged.  The store and the outbox are untouched. *)
Theorem init_reraises (services : Services) (MONGODB_URI : string)
    (w : World) :
  let w' := snd (init services MONGODB_URI w) in
  (fst (init services MONGODB_URI w) = Ok tt <->
   MongoClient services MONGODB_URI = Ok tt /\
   GenerativeModel services "gemini-pro" = Ok tt /\
   GenerativeModel services "gemini-pro-vision" = Ok tt) /\
  (fst (init services MONGODB_URI w) = Ok tt ->
   logged_errors w' = logged_errors w) /\
  (forall e,
      fst (init services MONGODB_URI w) = Raise e ->
      logged_errors w' = logged_errors w ++ [init_error_entry e] /\
      (MongoClient services MONGODB_URI = Raise e \/
       GenerativeModel services "gemini-pro" = Raise e \/
       GenerativeModel services "gemini-pro-vision" = Raise e)) /\
  (forall e,
      MongoClient services MONGODB_URI = Raise e ->
      fst (init services MONGODB_URI w) = Raise e /\
      logged_infos w' = logged_infos w) /\
  db w' = db w /\ outbox w' = outbox w.
Proof.
  unfold init. run. run. unfold logged_errors, logged_infos.
  destruct (MongoClient services MONGODB_URI) as [[]|e1];
    [destruct (GenerativeModel services "gemini-pro") as [[]|e2];
     [destruct (GenerativeModel services "gemini-pro-vision") as [[]|e3]|]|];
    cbn [fst snd log db outbox];
    rewrite ?filter_app, ?filter_cons, ?filter_nil;
    repeat case_decide; try discriminate;
    rewrite ?app_nil_r;
    repeat split; try done; try (intros; simplify_eq; auto; fail);
    try (intros (? & ? & ?); discriminate).
Qed.

Lemma init_reraises_witness :
  let services :=
    {| MongoClient := fun _ => Ok tt;
       GenerativeModel := fun name =>
         if bool_decide (name = "gemini-pro-vision")
         then Raise "NotFound: model" else Ok tt |} in
  logged_errors (snd (init services "mongodb://localhost" empty_world))
  = [init_error_entry "NotFound: model"].
Proof.
  cbn zeta.
  eapply (init_reraises _ "mongodb://localhost" empty_world).
  vm_compute. reflexivity.
Defined.

(* --------------------------------------------------------------------- *)
(* Further properties: a text message and a photo, end to end             *)
(* --------------------------------------------------------------------- *)

(** X27. A text message, end to end: the text model is called once with
    the message itself as its prompt; when it answers, the record
    appended to [chat_history] holds the chat id, the message, the whole
    answer and the time of the write, and the reply is the first 4096
    characters of the answer. *)
Theorem text_message_pipeline (env : Env) (chat_id : Z) (message : string)
    (resp : Response) (w : World) :
  model_generate_content env message = Ok (Some resp) ->
  let ev := TextMessage message in
  let w' := snd (dispatch env chat_id ev w) in
  new_inferences w w' = [(TextCall message, Ok (Some resp))] /\
  new_replies w w'
    = [text_reply chat_id (Py.slice_to max_reply_length (text resp))] /\
  exists rec,
    appends_record ev (db w) (db w') rec /\
    rec !! "chat_id" = Some (VInt chat_id) /\
    rec !! "user_message" = Some (VStr message) /\
    rec !! "bot_response" = Some (VStr (text resp)) /\
    rec !! "timestamp" = Some (VTime (utcnow env)).
Proof.
  intros Hmodel. cbn zeta. cbn [dispatch].
  pose proof (handle_message_run env chat_id message w) as H.
  rewrite Hmodel in H. cases_of H. rewrite Hdb, Hrep, Hinf. cbn [text_or].
  repeat split. eexists. split; [by repeat split|].
  unfold chat_record, mk_dict. cbn [foldl fst snd]. by simplify_map_eq.
Qed.

Lemma text_message_pipeline_witness :
  new_inferences empty_world
    (snd (dispatch (sample_env (Some {| text := "Hi Ann" |}) []) 123
            (TextMessage "Hello") empty_world))
  = [(TextCall "Hello", Ok (Some {| text := "Hi Ann" |}))].
Proof.
  eapply (text_message_pipeline (sample_env (Some {| text := "Hi Ann" |}) [])
            123 "Hello" {| text := "Hi Ann" |} empty_world).
  reflexivity.
Defined.

(** X28. A photo, end to end: the file of the last size is resolved and
    downloaded, and the vision model is called once with the bytes
    downloaded; when it answers, the record appended to
    [image_analysis] holds the chat id, the path of the file, the whole
    answer and the time of the write, and the reply is the first 4096
    characters of the answer. *)
Theorem photo_pipeline (env : Env) (chat_id : Z)
    (photos : list PhotoSize.t) (photo : PhotoSize.t) (file : File)
    (image_bytes : bytes) (resp : Response) (w : World) :
  last photos = Some photo ->
  get_file env (PhotoSize.file_id photo) = Ok file ->
  download_as_bytearray file = Ok image_bytes ->
  vision_model_generate_content env image_bytes = Ok (Some resp) ->
  let ev := PhotoMessage photos in
  let w' := snd (dispatch env chat_id ev w) in
  new_inferences w w' = [(VisionCall image_bytes, Ok (Some resp))] /\
  new_replies w w'
    = [text_reply chat_id (Py.slice_to max_reply_length (text resp))] /\
  exists rec,
    appends_record ev (db w) (db w') rec /\
    rec !! "chat_id" = Some (VInt chat_id) /\
    rec !! "image_url" = Some (VStr (file_path file)) /\
    rec !! "description" = Some (VStr (text resp)) /\
    rec !! "timestamp" = Some (VTime (utcnow env)).
Proof.
  intros Hlast Hfile Hdl Hmodel. cbn zeta. cbn [dispatch].
  pose proof (handle_photo_run env chat_id photos w) as H.
  cbn zeta in H. rewrite Hlast, Hfile, Hdl, Hmodel in H. cases_of H.
  rewrite Hdb, Hrep, Hinf. cbn [text_or].
  repeat split. eexists. split; [by repeat split|].
  unfold image_record, mk_dict. cbn [foldl fst snd]. by simplify_map_eq.
Qed.

Lemma photo_pipeline_witness :
  new_inferences empty_world
    (snd (dispatch (sample_env (Some {| text := "A cat." |}) []) 123
            (PhotoMessage [ {| PhotoSize.file_id := "thumb" |};
                            {| PhotoSize.file_id := "photo-9" |} ])
            empty_world))
  = [(VisionCall [], Ok (Some {| text := "A cat." |}))].
Proof.
  eapply (photo_pipeline (sample_env (Some {| text := "A cat." |}) []) 123
            [ {| PhotoSize.file_id := "thumb" |};
              {| PhotoSize.file_id := "photo-9" |} ]
            {| PhotoSize.file_id := "photo-9" |} sample_file []
            {| text := "A cat." |} empty_world); reflexivity.
Defined.
